(** * The lead scraper front end: CSV export and the scrape request life cycle

    A shallow embedding of [static/script.js] (class [GoogleMapsLeadScraper])
    and the properties its specification states about it.

    Strings are byte strings (the UTF-8 text of the JavaScript string); the
    three characters the CSV layer cares about (double quote, comma, line
    feed) are ASCII and never occur inside a multi-byte sequence. *)

From Stdlib Require Import String Ascii ZArith Lia.
From Stdlib Require Import Floats.SpecFloat.
From stdpp Require Import base strings pretty list gmap.


(** ** JavaScript values *)

(** The primitive values a field of a JSON-decoded lead can hold, plus
    [undefined] for a property that is not there.  A Number is an IEEE-754
    double, given by its sign, mantissa and exponent. *)
Inductive jsval : Type :=
| JUndefined
| JNull
| JBool (b : bool)
| JNum (x : spec_float)
| JStr (s : string).

(** ToBoolean: [undefined], [null], [false], [+0], [-0], [NaN] and the empty
    string are falsy; everything else is truthy. *)
Definition ToBoolean (v : jsval) : bool :=
  match v with
  | JUndefined | JNull => false
  | JBool b => b
  | JNum (S754_zero _) | JNum S754_nan => false
  | JNum _ => true
  | JStr EmptyString => false
  | JStr _ => true
  end.

(** [a || b] *)
Definition js_or (a b : jsval) : jsval := if ToBoolean a then a else b.

Definition dquote : ascii := "034"%char.
Definition comma : ascii := ","%char.
Definition newline : ascii := "010"%char.

Definition DQ : string := String dquote "".
Definition COMMA : string := String comma "".
Definition LF : string := String newline "".

(** A lead is a JSON object: a finite map from property names to values.
    Reading a property that is absent yields [undefined]. *)
Abbreviation lead := (gmap string jsval).

Definition prop (o : lead) (k : string) : jsval := default JUndefined (o !! k).

(** ** The page *)

(** What [#resultsContent] shows. *)
Inductive panel : Type :=
| AsLoaded                        (* the markup of the template *)
| Placeholder                     (* set by clearResults *)
| ErrorPanel (message : string)   (* set by showError *)
| LeadCards (cards : list lead).  (* built by displayResults *)

(** The value held by [this.leads]: the constructor stores an array, the
    success path stores whatever [data.leads] is.  For a value that is not an
    array the only thing exportToCSV observes is whether its [length] is 0
    (afterwards [map] is missing and a TypeError is raised). *)
Inductive leads_value : Type :=
| LeadsArray (l : list lead)
| NotAnArray (length_is_zero : bool).

Record stats : Type := mkStats {
  total : jsval;
  with_phone : jsval;
  with_website : jsval }.

(** The decoded body of the [/scrape] response ([data]). *)
Record payload : Type := mkPayload {
  p_error : jsval;
  p_leads : leads_value;
  p_stats : option stats (* None: data.stats is undefined or null *) }.

Inductive json_data : Type :=
| JsonNull                     (* reading data.error raises TypeError *)
| JsonObject (p : payload).

(** The three inputs of the form, read when the submit handler runs. *)
Record form : Type := mkForm {
  query : string;
  location : string;
  maxResults : string }.

(** One call of [fetch]. *)
Record request : Type := mkRequest {
  url : string;
  method : string;
  content_type : string;
  body : form (* JSON.stringify({query, location, maxResults}) *) }.

(** The object and the part of the document it touches.  [page] holds the
    scalar DOM properties the script assigns, keyed by element id and
    property path; the two counters are the activations of startScraping
    suspended at [await fetch(...)] and at [await response.json()]. *)
Record state : Type := mkState {
  this_leads : leads_value;
  resultsContent : panel;
  page : gmap string jsval;
  awaiting_fetch : nat;
  awaiting_json : nat;
  fetched : list request;
  downloaded : list string;
  alerts : list string }.

Definition set_page (f : gmap string jsval -> gmap string jsval) (s : state) : state :=
  mkState (this_leads s) (resultsContent s) (f (page s)) (awaiting_fetch s)
          (awaiting_json s) (fetched s) (downloaded s) (alerts s).

Definition set_resultsContent (p : panel) (s : state) : state :=
  mkState (this_leads s) p (page s) (awaiting_fetch s)
          (awaiting_json s) (fetched s) (downloaded s) (alerts s).

Definition set_this_leads (l : leads_value) (s : state) : state :=
  mkState l (resultsContent s) (page s) (awaiting_fetch s)
          (awaiting_json s) (fetched s) (downloaded s) (alerts s).

(** The state right after [new GoogleMapsLeadScraper()] on a freshly loaded
    document [dom] with results panel [p]. *)
Definition boot (p : panel) (dom : gmap string jsval) : state :=
  mkState (LeadsArray []) p dom 0 0 [] [] [].

Definition in_flight (s : state) : nat := awaiting_fetch s + awaiting_json s.

Definition scrapeBtn_disabled (s : state) : bool :=
  match page s !! "scrapeBtn.disabled" with
  | Some v => ToBoolean v
  | None => false
  end.

(** ** Completions *)

(** A statement either falls through, returns from the enclosing function or
    throws; the mutations it made stay. *)
Inductive completion : Type := Normal | Return | Throw.

Definition stmt : Type := state -> completion * state.

Definition act (f : state -> state) : stmt := fun s => (Normal, f s).
Definition skip : stmt := fun s => (Normal, s).
Definition ret : stmt := fun s => (Return, s).
Definition throw : stmt := fun s => (Throw, s).

Definition seq (p q : stmt) : stmt :=
  fun s => match p s with
           | (Normal, s') => q s'
           | r => r
           end.

Infix ">>" := seq (at level 65, right associativity).

(** [try { body } catch (error) { handler } finally { fin }] *)
Definition try_catch_finally (body handler fin : stmt) : stmt :=
  fun s =>
    let (c, s1) := body s in
    let (c', s2) := match c with Throw => handler s1 | _ => (c, s1) end in
    let (cf, s3) := fin s2 in
    match cf with Normal => (c', s3) | _ => (cf, s3) end.

(** ** CSV text per RFC 4180 *)

Definition is_edge_case (c : ascii) : bool :=
  Ascii.eqb c dquote || Ascii.eqb c comma || Ascii.eqb c newline.

(** No comma, double quote or line feed in the text. *)
Fixpoint plain (s : string) : bool :=
  match s with
  | EmptyString => true
  | String c rest => negb (is_edge_case c) && plain rest
  end.

Fixpoint quote_free (s : string) : bool :=
  match s with
  | EmptyString => true
  | String c rest => negb (Ascii.eqb c dquote) && quote_free rest
  end.

(** Modelled from the spec: the escaping of section 4.4, which the script
    does not have.  Every double quote of the field text is doubled. *)
Fixpoint rfc4180_escape (s : string) : string :=
  match s with
  | EmptyString => EmptyString
  | String c rest =>
      if Ascii.eqb c dquote
      then String dquote (String dquote (rfc4180_escape rest))
      else String c (rfc4180_escape rest)
  end.

(** Modelled from the spec: where the reader stands in a field. *)
Inductive pstate : Type := FieldStart | Unquoted | Quoted | QuoteSeen.

(** Modelled from the spec: the reader of the CSV round trip, absent from the
    repository.  An RFC 4180 reader with line feed as the record separator
    (what the script emits): a field is either bare, and then holds no double
    quote, or enclosed in double quotes, where a doubled quote stands for
    one.  [field], [row] and [rows] are what has been read so far. *)
Fixpoint parse_from (st : pstate) (field : string) (row : list string)
    (rows : list (list string)) (input : string) : option (list (list string)) :=
  match input with
  | EmptyString =>
      match st with
      | Quoted => None
      | _ => Some (rows ++ [row ++ [field]])
      end
  | String c rest =>
      match st with
      | Quoted =>
          if Ascii.eqb c dquote then parse_from QuoteSeen field row rows rest
          else parse_from Quoted (field +:+ String c "") row rows rest
      | QuoteSeen =>
          if Ascii.eqb c dquote
          then parse_from Quoted (field +:+ String c "") row rows rest
          else if Ascii.eqb c comma
          then parse_from FieldStart "" (row ++ [field]) rows rest
          else if Ascii.eqb c newline
          then parse_from FieldStart "" [] (rows ++ [row ++ [field]]) rest
          else None
      | FieldStart | Unquoted =>
          if Ascii.eqb c dquote
          then match st with
               | FieldStart => parse_from Quoted "" row rows rest
               | _ => None
               end
          else if Ascii.eqb c comma
          then parse_from FieldStart "" (row ++ [field]) rows rest
          else if Ascii.eqb c newline
          then parse_from FieldStart "" [] (rows ++ [row ++ [field]]) rest
          else parse_from Unquoted (field +:+ String c "") row rows rest
      end
  end.

(** Modelled from the spec: the reader, from the start of the text. *)
Definition parse_csv (input : string) : option (list (list string)) :=
  parse_from FieldStart "" [] [] input.

(** [join sep] on an array of strings. *)
Fixpoint join_strings (sep : string) (l : list string) : string :=
  match l with
  | [] => ""
  | [x] => x
  | x :: rest => x +:+ sep +:+ join_strings sep rest
  end.

(** ** A printer of Numbers for the examples *)

Fixpoint strip_zeros (rev_digits : string) : string :=
  match rev_digits with
  | String "0"%char rest => strip_zeros rest
  | _ => rev_digits
  end.

Fixpoint zeros (n : nat) : string :=
  match n with
  | O => ""
  | S n' => String "0"%char (zeros n')
  end.

(** The exact decimal expansion of a double, for the samples.  It is not
    Number::toString, which prints the shortest decimal that reads back as
    the same double and writes large and small magnitudes with an exponent;
    the two agree on the values the samples use (0, 4.5, 120 and -1), and no
    theorem depends on this printer. *)
Definition exact_decimal (x : spec_float) : string :=
  match x with
  | S754_zero _ => "0"
  | S754_nan => "NaN"
  | S754_infinity s => (if s then "-" else "") +:+ "Infinity"
  | S754_finite s m e =>
      (if s then "-" else "") +:+
      (if (0 <=? e)%Z then pretty (N.pos m * 2 ^ Z.to_N e)%N
       else
         let k := Z.to_N (- e) in
         let n := (N.pos m * 5 ^ k)%N in
         let int := (n / 10 ^ k)%N in
         let frac := pretty (n mod 10 ^ k)%N in
         let digits := zeros (N.to_nat k - String.length frac) +:+ frac in
         match String.rev (strip_zeros (String.rev digits)) with
         | EmptyString => pretty int
         | d => pretty int +:+ "." +:+ d
         end)
  end.

Definition four_and_a_half : spec_float := S754_finite false 5066549580791808 (-50).
Definition one_hundred_twenty : spec_float := S754_finite false 8444249301319680 (-46).

Definition header_names : list string :=
  ["Name"; "Address"; "Phone"; "Website"; "Rating"; "Reviews"; "Category"].

Definition header_line : string := "Name,Address,Phone,Website,Rating,Reviews,Category".

(** [cell] is a well-formed RFC 4180 field that stands for [text]. *)
Inductive encodes : string -> string -> Prop :=
| enc_quoted (t : string) : encodes (DQ +:+ rfc4180_escape t +:+ DQ) t
| enc_bare (t : string) : plain t = true -> encodes t t.

(** [undefined] or [null]: the ways a JSON field is missing. *)
Definition absent (v : jsval) : Prop := v = JUndefined \/ v = JNull.

Fixpoint whitespace_only (s : string) : bool :=
  match s with
  | EmptyString => true
  | String c rest => Ascii.is_space c && whitespace_only rest
  end.

(** ** The engine *)

(** What the development takes from the JavaScript engine and the DOM.
    [Number_toString] is Number::toString (the shortest decimal that reads
    back as the same double); nothing is used of it but its result.
    [createLeadElement_raises] tells whether createLeadElement raises on a
    lead: it calls [String.prototype.repeat] with the floor of the rating,
    which raises RangeError on a negative or infinite count.  The markup it
    builds is presentation and is kept as the lead itself in [LeadCards]. *)
Class Engine : Type := {
  Number_toString : spec_float -> string;
  createLeadElement_raises : lead -> bool }.

Section Engine.

Context {js : Engine}.

Definition ToString (v : jsval) : string :=
  match v with
  | JUndefined => "undefined"
  | JNull => "null"
  | JBool true => "true"
  | JBool false => "false"
  | JNum x => Number_toString x
  | JStr s => s
  end.

(** The template literal [`"${v}"`]. *)
Definition quoted (v : jsval) : jsval := JStr (DQ +:+ ToString v +:+ DQ).

(** Array.prototype.join: [undefined] and [null] elements give the empty
    string, the others their ToString. *)
Definition join_element (v : jsval) : string :=
  match v with
  | JUndefined | JNull => ""
  | _ => ToString v
  end.

Fixpoint join (sep : string) (a : list jsval) : string :=
  match a with
  | [] => ""
  | [x] => join_element x
  | x :: rest => join_element x +:+ sep +:+ join sep rest
  end.

(** ** exportToCSV *)

Definition headers : list jsval :=
  [JStr "Name"; JStr "Address"; JStr "Phone"; JStr "Website";
   JStr "Rating"; JStr "Reviews"; JStr "Category"].

(** The array literal of lines 115 to 123, before its [join]. *)
Definition row_array (ld : lead) : list jsval :=
  [ quoted (prop ld "name");
    quoted (js_or (prop ld "address") (JStr ""));
    quoted (js_or (prop ld "phone") (JStr ""));
    quoted (js_or (prop ld "website") (JStr ""));
    js_or (prop ld "rating") (JStr "");
    js_or (prop ld "reviews_count") (JStr "");
    quoted (js_or (prop ld "category") (JStr "")) ].

Definition csv_row (ld : lead) : string := join COMMA (row_array ld).

(** [csvContent], lines 112 to 125. *)
Definition csvContent (leads : list lead) : string :=
  join LF (JStr (join COMMA headers) :: map (fun ld => JStr (csv_row ld)) leads).

(** exportToCSV.  The download is recorded by its text (the file name holds
    the date of the day, the type is text/csv); the transient success note
    is not part of the state. *)
Definition exportToCSV : stmt :=
  fun s =>
    match this_leads s with
    | LeadsArray [] | NotAnArray true =>
        (Return,
         mkState (this_leads s) (resultsContent s) (page s) (awaiting_fetch s)
                 (awaiting_json s) (fetched s) (downloaded s)
                 (alerts s ++ ["No leads to export"]))
    | NotAnArray false => (Throw, s)
    | LeadsArray l =>
        (Normal,
         mkState (this_leads s) (resultsContent s) (page s) (awaiting_fetch s)
                 (awaiting_json s) (fetched s) (downloaded s ++ [csvContent l])
                 (alerts s))
    end.

(** ** The page helpers *)

Definition showLoading (show : bool) (s : state) : state :=
  set_page (fun d =>
    <["scrapeBtn.textContent" := JStr (if show then "Scraping..." else " Start Scraping")]>
      (<["scrapeBtn.disabled" := JBool show]>
         (<["loading.style.display" := JStr (if show then "flex" else "none")]> d))) s.

Definition showExportSection (show : bool) (s : state) : state :=
  set_page (<["exportSection.style.display" := JStr (if show then "block" else "none")]>) s.

Definition clearResults (s : state) : state :=
  set_page (<["stats.style.display" := JStr "none"]>) (set_resultsContent Placeholder s).

Definition showError (message : jsval) (s : state) : state :=
  set_resultsContent (ErrorPanel (ToString message)) s.

(** updateStats raises TypeError when [data.stats] is undefined or null. *)
Definition updateStats (st : option stats) : stmt :=
  match st with
  | None => throw
  | Some st =>
      act (set_page (fun d =>
        <["stats.style.display" := JStr "grid"]>
          (<["withWebsite.textContent" := with_website st]>
             (<["withPhone.textContent" := with_phone st]>
                (<["totalLeads.textContent" := total st]> d)))))
  end.

(** [resultsContent.appendChild(leadElement)]; displayResults empties the
    panel first, so it holds cards when one is appended. *)
Definition appendChild (card : lead) (s : state) : state :=
  match resultsContent s with
  | LeadCards cards => set_resultsContent (LeadCards (cards ++ [card])) s
  | _ => set_resultsContent (LeadCards [card]) s
  end.

(** The [forEach] of displayResults. *)
Fixpoint forEach_lead (l : list lead) : stmt :=
  match l with
  | [] => skip
  | ld :: rest =>
      (if createLeadElement_raises ld then throw else act (appendChild ld))
      >> forEach_lead rest
  end.

Definition displayResults : stmt :=
  act (set_resultsContent (LeadCards [])) >>
  (fun s => match this_leads s with
            | LeadsArray l => forEach_lead l s
            | NotAnArray _ => throw s
            end).

(** ** startScraping *)

Definition call_fetch (r : request) (s : state) : state :=
  mkState (this_leads s) (resultsContent s) (page s) (S (awaiting_fetch s))
          (awaiting_json s) (fetched s ++ [r]) (downloaded s) (alerts s).

Definition set_awaiting (f j : nat) (s : state) : state :=
  mkState (this_leads s) (resultsContent s) (page s) f j
          (fetched s) (downloaded s) (alerts s).

(** From the call to the first [await]: the validation, and the request. *)
Definition startScraping (f : form) (s : state) : state :=
  if negb (ToBoolean (JStr (query f)))
  then showError (JStr "Please enter a search query") s
  else call_fetch (mkRequest "/scrape" "POST" "application/json" f)
                  (clearResults (showLoading true s)).

(** The [catch] and [finally] clauses (console.error leaves no trace in the
    state). *)
Definition on_error : stmt :=
  act (showError (JStr "An error occurred while scraping. Please try again.")).

Definition resume (rest_of_try : stmt) (s : state) : state :=
  snd (try_catch_finally rest_of_try on_error (act (showLoading false)) s).

(** The [try] block after [data] is there, lines 46 to 54. *)
Definition after_json (d : json_data) : stmt :=
  match d with
  | JsonNull => throw
  | JsonObject p =>
      if ToBoolean (p_error p)
      then act (showError (p_error p)) >> ret
      else act (set_this_leads (p_leads p)) >>
           displayResults >>
           updateStats (p_stats p) >>
           act (showExportSection true)
  end.

(** ** The event loop *)

Inductive event : Type :=
| Submit (f : form)                   (* the form is submitted *)
| ExportClick                         (* #exportBtn is clicked *)
| FetchSettled (ok : bool)            (* fetch resolves, or rejects *)
| JsonSettled (d : option json_data). (* response.json() resolves, or rejects *)

(** One task of the event loop; [None] when the event cannot occur.  The
    form cannot be submitted while its submit control [#scrapeBtn] is
    disabled (the browser refuses it); a promise settles only when an
    activation waits for it. *)
Definition step (s : state) (e : event) : option state :=
  match e with
  | Submit f => if scrapeBtn_disabled s then None else Some (startScraping f s)
  | ExportClick => Some (snd (exportToCSV s))
  | FetchSettled ok =>
      match awaiting_fetch s with
      | O => None
      | S n =>
          if ok then Some (set_awaiting n (S (awaiting_json s)) s)
          else Some (resume throw (set_awaiting n (awaiting_json s) s))
      end
  | JsonSettled d =>
      match awaiting_json s with
      | O => None
      | S n =>
          Some (resume (match d with Some v => after_json v | None => throw end)
                       (set_awaiting (awaiting_fetch s) n s))
      end
  end.

Fixpoint run (s : state) (evs : list event) : option state :=
  match evs with
  | [] => Some s
  | e :: rest => match step s e with
                 | Some s' => run s' rest
                 | None => None
                 end
  end.

(** ** What the statements below are phrased with *)

(** The seven cells of a row as text, in column order. *)
Definition row_cells (ld : lead) : list string := map join_element (row_array ld).

(** The text a field is coerced to when it is written: [`${v || ''}`]. *)
Definition text_of (v : jsval) : string := ToString (js_or v (JStr "")).

(** The seven texts the script writes for a lead, without the quotes: the
    name coerced to text, and each other field through [|| ''], so that a
    falsy value (0, false, NaN, null) gives the empty text. *)
Definition lead_texts (ld : lead) : list string :=
  [ ToString (prop ld "name");
    text_of (prop ld "address");
    text_of (prop ld "phone");
    text_of (prop ld "website");
    text_of (prop ld "rating");
    text_of (prop ld "reviews_count");
    text_of (prop ld "category") ].

(** Everything after the header row: each row preceded by a line feed. *)
Definition rows_text (leads : list lead) : string :=
  foldr (fun ld acc => LF +:+ csv_row ld +:+ acc) "" leads.

(** Modelled from the spec: the encoder of section 4.4 with the RFC 4180
    escaping applied, which the script does not have: the row of the script
    with the text of every quoted field escaped; the numeric fields stay
    bare. *)
Definition quoted_rfc4180 (v : jsval) : jsval :=
  JStr (DQ +:+ rfc4180_escape (ToString v) +:+ DQ).

(** Modelled from the spec: the row of that encoder. *)
Definition row_array_rfc4180 (ld : lead) : list jsval :=
  [ quoted_rfc4180 (prop ld "name");
    quoted_rfc4180 (js_or (prop ld "address") (JStr ""));
    quoted_rfc4180 (js_or (prop ld "phone") (JStr ""));
    quoted_rfc4180 (js_or (prop ld "website") (JStr ""));
    js_or (prop ld "rating") (JStr "");
    js_or (prop ld "reviews_count") (JStr "");
    quoted_rfc4180 (js_or (prop ld "category") (JStr "")) ].

(** Modelled from the spec: the text of that encoder, laid out as the script
    lays out its own. *)
Definition csvContent_rfc4180 (leads : list lead) : string :=
  join LF (JStr (join COMMA headers)
             :: map (fun ld => JStr (join COMMA (row_array_rfc4180 ld))) leads).

(** The numeric cells of a lead hold no comma, double quote or line feed. *)
Definition numbers_plain (ld : lead) : bool :=
  plain (text_of (prop ld "rating")) && plain (text_of (prop ld "reviews_count")).

(** The event hands a body without an error to the success path. *)
Definition delivers_leads (e : event) : bool :=
  match e with
  | JsonSettled (Some (JsonObject p)) => negb (ToBoolean (p_error p))
  | _ => false
  end.

End Engine.

(** ** What the proofs are phrased with *)

(** What the reader does with the character after a field. *)
Definition after_field (t : string) (row : list string) (rows : list (list string))
    (rest : string) : option (list (list string)) :=
  match rest with
  | EmptyString => Some (rows ++ [row ++ [t]])
  | String c rest' =>
      if Ascii.eqb c comma then parse_from FieldStart "" (row ++ [t]) rows rest'
      else if Ascii.eqb c newline then parse_from FieldStart "" [] (rows ++ [row ++ [t]]) rest'
      else None
  end.

(** [p] leaves the observation [f] of the state as it is, however it
    completes. *)
Definition keeps {A : Type} (f : state -> A) (p : stmt) : Prop :=
  forall s, f (snd (p s)) = f s.

(** What no page helper touches: the suspended activations and the
    requests sent. *)
Definition traffic (s : state) : nat * nat * list request :=
  (awaiting_fetch s, awaiting_json s, fetched s).

(** The exclusion invariant of the event loop. *)
Definition one_at_a_time (s : state) : Prop :=
  in_flight s <= 1 /\ (in_flight s = 1 -> scrapeBtn_disabled s = true).

(** The stored leads and the visibility of the export section. *)
Definition held (s : state) : leads_value * option jsval :=
  (this_leads s, page s !! "exportSection.style.display").

(** The event is not the submission of a query that is not empty. *)
Definition no_query (e : event) : bool :=
  match e with
  | Submit f => String.eqb (query f) ""
  | _ => true
  end.

(** ** Sample data *)

Definition joes_cafe : lead :=
  <["name" := JStr "Joe's Cafe"]>
    (<["address" := JStr "1 Main St"]>
       (<["phone" := JStr "555-1111"]>
          (<["rating" := JNum four_and_a_half]>
             (<["reviews_count" := JNum one_hundred_twenty]> ∅)))).

(** A name with a literal double quote and a comma: Joe "JJ" Cafe, Inc *)
Definition nickname : string :=
  "Joe " +:+ DQ +:+ "JJ" +:+ DQ +:+ " Cafe, Inc".

Definition nickname_cafe : lead :=
  <["name" := JStr nickname]> (<["address" := JNull]> ∅).

(** A lead whose rating and review count are there and are 0. *)
Definition unrated_cafe : lead :=
  <["name" := JStr "Corner Cafe"]>
    (<["rating" := JNum (S754_zero false)]>
       (<["reviews_count" := JNum (S754_zero false)]> ∅)).

Definition cafe_query : form := mkForm "cafe" "Springfield" "10".
Definition blank_query : form := mkForm "   " "Springfield" "10".

Definition success_body (l : list lead) : option json_data :=
  Some (JsonObject (mkPayload JUndefined (LeadsArray l)
                      (Some (mkStats (JStr "1") (JStr "1") (JStr "0"))))).

Definition error_body (reason : string) : option json_data :=
  Some (JsonObject (mkPayload (JStr reason) (NotAnArray false) None)).

(** An engine to run the samples with: the exact decimal printer, and cards
    that never raise. *)
Definition sample_engine : Engine :=
  {| Number_toString := exact_decimal; createLeadElement_raises := fun _ => false |}.

Definition fresh_page : state := boot AsLoaded ∅.

(** One scrape from the click to the decoded body. *)
Definition one_scrape (body : option json_data) : list event :=
  [Submit cafe_query; FetchSettled true; JsonSettled body].

Definition cafe_row : string :=
  DQ +:+ "Joe's Cafe" +:+ DQ +:+ "," +:+ DQ +:+ "1 Main St" +:+ DQ +:+ ","
  +:+ DQ +:+ "555-1111" +:+ DQ +:+ "," +:+ DQ +:+ DQ +:+ ",4.5,120," +:+ DQ +:+ DQ.

(** The page after a scrape that found Joe's Cafe. *)
Definition cafe_shown : state :=
  default fresh_page
    (run (js := sample_engine) fresh_page (one_scrape (success_body [joes_cafe]))).

(** The page after a second scrape that the server answered with an error. *)
Definition cafe_failed : state :=
  default fresh_page
    (run (js := sample_engine) cafe_shown (one_scrape (error_body "Rate limited"))).

(** The page while a scrape waits for the body of its response. *)
Definition cafe_pending : state :=
  default fresh_page
    (run (js := sample_engine) fresh_page [Submit cafe_query; FetchSettled true]).

(** The page after two submissions of an empty query and a click on export. *)
Definition nothing_asked : state :=
  default cafe_shown
    (run (js := sample_engine) fresh_page
       [Submit (mkForm "" "Springfield" "10"); ExportClick; Submit (mkForm "" "" "")]).

(** ** The rest of the script *)

(** The message of the [catch] clause. *)
Definition scraping_failed : string :=
  "An error occurred while scraping. Please try again.".

(** The requests a task of the event loop sends: one for the submission of a
    query that is not empty, none otherwise. *)
Definition requests_of (e : event) : list request :=
  match e with
  | Submit f =>
      if ToBoolean (JStr (query f))
      then [mkRequest "/scrape" "POST" "application/json" f]
      else []
  | _ => []
  end.

(** What a task assigns to [this.leads], if it does. *)
Definition delivered (e : event) : option leads_value :=
  match e with
  | JsonSettled (Some (JsonObject p)) =>
      if ToBoolean (p_error p) then None else Some (p_leads p)
  | _ => None
  end.

(** The last assignment to [this.leads] over a sequence of tasks. *)
Fixpoint last_delivered (evs : list event) : option leads_value :=
  match evs with
  | [] => None
  | e :: rest =>
      match last_delivered rest with
      | Some l => Some l
      | None => delivered e
      end
  end.

Definition is_export (e : event) : bool :=
  match e with
  | ExportClick => true
  | _ => false
  end.

(** The loading indicator and the label of the button while a scrape runs,
    and when none does. *)
Definition busy_look (s : state) : Prop :=
  page s !! "loading.style.display" = Some (JStr "flex")
  /\ page s !! "scrapeBtn.textContent" = Some (JStr "Scraping...").

Definition idle_look (s : state) : Prop :=
  page s !! "loading.style.display" = Some (JStr "none")
  /\ page s !! "scrapeBtn.textContent" = Some (JStr " Start Scraping").

(** The seven properties of a lead the export reads. *)
Definition exported_keys : list string :=
  ["name"; "address"; "phone"; "website"; "rating"; "reviews_count"; "category"].

(** The six it reads through [|| '']. *)
Definition defaulted_keys : list string :=
  ["address"; "phone"; "website"; "rating"; "reviews_count"; "category"].

(** [String.prototype.repeat] for a count that is a natural number. *)
Fixpoint repeat_string (s : string) (count : nat) : string :=
  match count with
  | O => ""
  | S n => s +:+ repeat_string s n
  end.

Section Cards.

Context {js : Engine}.

(** The text fields of a lead hold no double quote. *)
Definition quotes_absent (ld : lead) : bool :=
  quote_free (ToString (prop ld "name"))
  && quote_free (text_of (prop ld "address"))
  && quote_free (text_of (prop ld "phone"))
  && quote_free (text_of (prop ld "website"))
  && quote_free (text_of (prop ld "category")).

(** The body of a response can be put on the page: its leads are an array,
    no card raises, and its stats are there. *)
Definition renders (p : payload) : bool :=
  match p_leads p, p_stats p with
  | LeadsArray l, Some _ => forallb (fun ld => negb (createLeadElement_raises ld)) l
  | _, _ => false
  end.

(** The template literals nested in the markup of a card, lines 85 to 92. *)
Definition phone_markup (ld : lead) : string :=
  if ToBoolean (prop ld "phone")
  then "<div class=" +:+ DQ +:+ "lead-info" +:+ DQ +:+ "><i>📞</i> "
       +:+ ToString (prop ld "phone") +:+ "</div>"
  else "".

Definition website_markup (ld : lead) : string :=
  if ToBoolean (prop ld "website")
  then "<div class=" +:+ DQ +:+ "lead-info" +:+ DQ +:+ "><i>🌐</i> <a href=" +:+ DQ
       +:+ ToString (prop ld "website") +:+ DQ +:+ " target=" +:+ DQ +:+ "_blank" +:+ DQ
       +:+ ">" +:+ ToString (prop ld "website") +:+ "</a></div>"
  else "".

Definition reviews_markup (ld : lead) : string :=
  if ToBoolean (prop ld "reviews_count")
  then "(" +:+ ToString (prop ld "reviews_count") +:+ " reviews)"
  else "".

Definition rating_markup (stars : string) (ld : lead) : string :=
  if ToBoolean (prop ld "rating")
  then LF +:+ "        <div class=" +:+ DQ +:+ "rating" +:+ DQ +:+ ">"
       +:+ LF +:+ "          <span class=" +:+ DQ +:+ "stars" +:+ DQ +:+ ">"
       +:+ stars +:+ "</span>"
       +:+ LF +:+ "          <span>" +:+ ToString (prop ld "rating") +:+ " "
       +:+ reviews_markup ld +:+ "</span>"
       +:+ LF +:+ "        </div>"
       +:+ LF +:+ "      "
  else "".

(** What createLeadElement assigns to [div.innerHTML], lines 80 to 93, for
    the string [stars] of line 78.  (The count of the stars is the floor of
    a double, and the animation delay a product of doubles; neither is part
    of this text.) *)
Definition card_innerHTML (stars : string) (ld : lead) : string :=
  LF +:+ "      <div class=" +:+ DQ +:+ "lead-name" +:+ DQ +:+ ">"
  +:+ ToString (prop ld "name") +:+ "</div>"
  +:+ LF +:+ "      <div class=" +:+ DQ +:+ "lead-info" +:+ DQ +:+ ">"
  +:+ LF +:+ "        <i>📍</i> " +:+ ToString (js_or (prop ld "address") (JStr "N/A"))
  +:+ LF +:+ "      </div>"
  +:+ LF +:+ "      " +:+ phone_markup ld
  +:+ LF +:+ "      " +:+ website_markup ld
  +:+ LF +:+ "      " +:+ rating_markup stars ld
  +:+ LF +:+ "    ".

End Cards.

(** ** More sample data *)

(** A lead with a review count and no rating, and no address. *)
Definition unrated_reviews : lead :=
  <["name" := JStr "Corner Cafe"]>
    (<["reviews_count" := JNum one_hundred_twenty]>
       (<["rating" := JNull]> ∅)).

(** A name with a comma and a line feed, and no double quote. *)
Definition two_line_cafe : lead :=
  <["name" := JStr ("Cafe, the" +:+ LF +:+ "second")]>
    (<["email" := JStr "hello@cafe.example"]> ∅).

(** A rating that makes line 78 raise: [repeat] raises RangeError on the
    floor of a negative or an infinite Number. *)
Definition rating_raises (ld : lead) : bool :=
  match prop ld "rating" with
  | JNum (S754_finite true _ _) | JNum (S754_infinity _) => true
  | _ => false
  end.

(** An engine for the samples, whose ratings are Numbers or missing: a card
    raises when the rating is negative or infinite, as in the script.  (A
    rating so large that the stars exceed the longest string of the engine
    raises too; the samples have none.) *)
Definition rating_engine : Engine :=
  {| Number_toString := exact_decimal; createLeadElement_raises := rating_raises |}.

Definition minus_one : spec_float := S754_finite true 4503599627370496 (-52).

(** A lead with a rating of -1. *)
Definition sour_cafe : lead :=
  <["name" := JStr "Sour Cafe"]> (<["rating" := JNum minus_one]> ∅).

Definition cafe_payload : payload :=
  mkPayload JUndefined (LeadsArray [joes_cafe; unrated_cafe])
            (Some (mkStats (JStr "2") (JStr "1") (JStr "0"))).

(** A body without stats. *)
Definition statless_payload : payload :=
  mkPayload JUndefined (LeadsArray [joes_cafe; unrated_cafe]) None.

Definition broken_payload : payload :=
  mkPayload JUndefined (LeadsArray [joes_cafe; sour_cafe; unrated_cafe])
            (Some (mkStats (JStr "3") (JStr "1") (JStr "0"))).

(** The page after the body of [cafe_payload] came in, and after a click on
    export. *)
Definition cafe_listed : state :=
  default fresh_page
    (step (js := sample_engine) cafe_pending (JsonSettled (Some (JsonObject cafe_payload)))).

Definition cafe_broken : state :=
  default fresh_page
    (step (js := rating_engine) cafe_pending (JsonSettled (Some (JsonObject broken_payload)))).

Definition cafe_exported : state :=
  default fresh_page
    (run (js := sample_engine) fresh_page
       [Submit cafe_query; FetchSettled true;
        JsonSettled (Some (JsonObject cafe_payload)); ExportClick]).

(** A session: an empty query, a scrape that fails, a scrape that works, an
    export. *)
Definition cafe_session : list event :=
  [Submit (mkForm "" "" ""); Submit blank_query; FetchSettled false;
   Submit cafe_query; FetchSettled true;
   JsonSettled (Some (JsonObject cafe_payload)); ExportClick; ExportClick].

Definition cafe_session_end : state :=
  default fresh_page (run (js := sample_engine) fresh_page cafe_session).

(** A page that holds three leads, the second with a rating of -1. *)
Definition mixed_page : state :=
  set_this_leads (LeadsArray [joes_cafe; sour_cafe; unrated_cafe]) fresh_page.

(** ** The data of a lead, and the failures of a scrape *)

Section Data.

Context {js : Engine}.

(** The data of a field as text: the value coerced to a string, a missing
    value as the empty text. *)
Definition data_text (v : jsval) : string :=
  match v with
  | JUndefined | JNull => ""
  | _ => ToString v
  end.

(** The data of a lead, field by field in the order of the columns. *)
Definition lead_data (ld : lead) : list string :=
  [ data_text (prop ld "name");
    data_text (prop ld "address");
    data_text (prop ld "phone");
    data_text (prop ld "website");
    data_text (prop ld "rating");
    data_text (prop ld "reviews_count");
    data_text (prop ld "category") ].

(** The value is there. *)
Definition present (v : jsval) : bool :=
  match v with
  | JUndefined | JNull => false
  | _ => true
  end.

(** [v || ''] loses nothing of the value: it is missing, a string, [true]
    or a Number other than 0 and NaN. *)
Definition kept (v : jsval) : bool :=
  match v with
  | JUndefined | JNull | JStr _ => true
  | JBool b => b
  | JNum x => ToBoolean (JNum x)
  end.

(** The lead has a name, and none of its other fields holds a value that
    [|| ''] drops. *)
Definition faithful (ld : lead) : bool :=
  present (prop ld "name")
  && kept (prop ld "address") && kept (prop ld "phone") && kept (prop ld "website")
  && kept (prop ld "rating") && kept (prop ld "reviews_count")
  && kept (prop ld "category").

(** The data of the two numeric fields holds no comma, double quote or line
    feed. *)
Definition numeric_data_plain (ld : lead) : bool :=
  plain (data_text (prop ld "rating")) && plain (data_text (prop ld "reviews_count")).

(** The message a task leaves in the results panel when it is a failure
    that comes before [this.leads] is assigned: the empty query (line 24),
    the response that carries an error (line 47), and the request or the
    reading of the body that throws (line 56). *)
Definition failure_message (e : event) : option string :=
  match e with
  | Submit f =>
      if ToBoolean (JStr (query f)) then None else Some "Please enter a search query"
  | ExportClick => None
  | FetchSettled ok => if ok then None else Some scraping_failed
  | JsonSettled None | JsonSettled (Some JsonNull) => Some scraping_failed
  | JsonSettled (Some (JsonObject p)) =>
      if ToBoolean (p_error p) then Some (ToString (p_error p)) else None
  end.

End Data.

(** The page after a scrape with an empty query that follows the scrape that
    found Joe's Cafe. *)
Definition cafe_rejected : state :=
  default fresh_page
    (step (js := sample_engine) cafe_shown (Submit (mkForm "" "Springfield" "10"))).

(** A lead with no rating and no address. *)
Definition tea_room : lead :=
  <["name" := JStr "Tea Room"]>
    (<["phone" := JStr "555-2222"]> (<["category" := JStr "Tea house"]> ∅)).

Section Properties.

Context {js : Engine}.

(** * Properties *)

(** ** Strings *)

Local Arguments String.append !s1 s2 : simpl nomatch.

Lemma string_app_assoc (a b c : string) : (a +:+ b) +:+ c = a +:+ (b +:+ c).
Proof. induction a as [|x a IH]; simpl; [reflexivity | now rewrite IH]. Qed.

Lemma string_app_nil_r (a : string) : a +:+ "" = a.
Proof. induction a as [|x a IH]; simpl; [reflexivity | now rewrite IH]. Qed.

Lemma string_snoc_app (a : string) (c : ascii) (b : string) :
  (a +:+ String c "") +:+ b = a +:+ String c b.
Proof. now rewrite string_app_assoc. Qed.

Lemma plain_quote_free (t : string) : plain t = true -> quote_free t = true.
Proof.
  induction t as [|c t IH]; simpl; [reflexivity |].
  unfold is_edge_case. intros H.
  apply andb_true_iff in H as [Hc Ht].
  rewrite (IH Ht), andb_true_r.
  destruct (Ascii.eqb c dquote); [discriminate Hc | reflexivity].
Qed.

(** Escaping changes nothing where there is no quote to double. *)
Lemma rfc4180_escape_quote_free (t : string) :
  quote_free t = true -> rfc4180_escape t = t.
Proof.
  induction t as [|c t IH]; simpl; [reflexivity |].
  destruct (Ascii.eqb c dquote); simpl; [discriminate |].
  intros H. now rewrite IH.
Qed.

Lemma join_as_strings (sep : string) (a : list jsval) :
  join sep a = join_strings sep (map join_element a).
Proof.
  induction a as [|x [|y a] IH]; [reflexivity | reflexivity |].
  change (join sep (x :: y :: a)) with (join_element x +:+ sep +:+ join sep (y :: a)).
  now rewrite IH.
Qed.

Lemma join_JStr (sep : string) (l : list string) :
  join sep (map JStr l) = join_strings sep l.
Proof.
  rewrite join_as_strings, map_map. f_equal.
  induction l as [|x l IH]; [reflexivity | cbn [map]; now rewrite IH].
Qed.

(** ** The reader on well-formed fields *)

Lemma parse_quoted_body (t : string) :
  forall field row rows rest,
    parse_from Quoted field row rows (rfc4180_escape t +:+ rest)
    = parse_from Quoted (field +:+ t) row rows rest.
Proof.
  induction t as [|c t IH]; intros field row rows rest.
  - now rewrite string_app_nil_r.
  - destruct (Ascii.eqb c dquote) eqn:E.
    + apply Ascii.eqb_eq in E. subst c. simpl.
      rewrite IH. now rewrite string_snoc_app.
    + simpl. rewrite E. simpl. rewrite E, IH. now rewrite string_snoc_app.
Qed.

Lemma parse_bare_body (t : string) :
  plain t = true ->
  forall st field row rows rest,
    st = FieldStart \/ st = Unquoted ->
    exists st', (st' = FieldStart \/ st' = Unquoted) /\
      parse_from st field row rows (t +:+ rest)
      = parse_from st' (field +:+ t) row rows rest.
Proof.
  induction t as [|c t IH]; intros Hp st field row rows rest Hst.
  - exists st. split; [assumption |]. now rewrite string_app_nil_r.
  - simpl in Hp. apply andb_true_iff in Hp as [Hc Ht].
    unfold is_edge_case in Hc.
    destruct (Ascii.eqb c dquote) eqn:E1; [discriminate |].
    destruct (Ascii.eqb c comma) eqn:E2; [discriminate |].
    destruct (Ascii.eqb c newline) eqn:E3; [discriminate |].
    destruct (IH Ht Unquoted (field +:+ String c "") row rows rest) as (st' & Hst' & Heq);
      [now right |].
    exists st'. split; [assumption |].
    rewrite string_snoc_app in Heq.
    destruct Hst as [-> | ->]; simpl; rewrite E1, E2, E3; exact Heq.
Qed.

Lemma parse_field (cell t : string) :
  encodes cell t ->
  forall row rows rest,
    (rest = "" \/ exists rest', rest = COMMA +:+ rest' \/ rest = LF +:+ rest') ->
    parse_from FieldStart "" row rows (cell +:+ rest) = after_field t row rows rest.
Proof.
  intros [t' | t' Hp] row rows rest Hrest.
  - rewrite !string_app_assoc. unfold DQ at 1. simpl.
    rewrite parse_quoted_body. unfold DQ, COMMA, LF. simpl.
    destruct Hrest as [-> | [rest' [-> | ->]]]; reflexivity.
  - destruct (parse_bare_body t' Hp FieldStart "" row rows rest) as (st' & Hst' & ->);
      [now left |].
    simpl.
    destruct Hrest as [-> | [rest' [-> | ->]]];
      destruct Hst' as [-> | ->]; reflexivity.
Qed.

(** A row: its fields separated by commas, up to the end of the text or a
    line feed. *)
Lemma parse_row (cells texts : list string) :
  Forall2 encodes cells texts ->
  cells <> [] ->
  forall row rows rest,
    parse_from FieldStart "" row rows (join_strings COMMA cells) = Some (rows ++ [row ++ texts])
    /\ parse_from FieldStart "" row rows (join_strings COMMA cells +:+ LF +:+ rest)
       = parse_from FieldStart "" [] (rows ++ [row ++ texts]) rest.
Proof.
  induction 1 as [|c t cells texts Hc Hrest IH]; intros Hne row rows rest;
    [congruence |].
  destruct Hrest as [|c2 t2 cells texts Hc2 Hrest].
  - cbn [join_strings]. split.
    + rewrite <- (string_app_nil_r c).
      rewrite (parse_field c t Hc); [reflexivity | now left].
    + rewrite (parse_field c t Hc); [reflexivity | right; eexists; now right].
  - assert (Hne2 : c2 :: cells <> []) by congruence.
    change (join_strings COMMA (c :: c2 :: cells))
      with (c +:+ COMMA +:+ join_strings COMMA (c2 :: cells)).
    destruct (IH Hne2 (row ++ [t]) rows rest) as [IH1 IH2].
    rewrite <- !(assoc_L (++) row [t]) in IH1, IH2. cbn [app] in IH1, IH2.
    split.
    + rewrite (parse_field c t Hc); [exact IH1 | right; eexists; now left].
    + rewrite !string_app_assoc.
      rewrite (parse_field c t Hc); [| right; eexists; now left].
      rewrite <- string_app_assoc. exact IH2.
Qed.

(** A table: its rows separated by line feeds. *)
Lemma parse_table (table texts : list (list string)) :
  Forall2 (fun cells row => cells <> [] /\ Forall2 encodes cells row) table texts ->
  table <> [] ->
  forall rows,
    parse_from FieldStart "" [] rows (join_strings LF (map (join_strings COMMA) table))
    = Some (rows ++ texts).
Proof.
  induction 1 as [|r t table texts [Hr Henc] Hrest IH]; intros Hne rows;
    [congruence |].
  destruct Hrest as [|r2 t2 table texts H2 Hrest].
  - cbn [map join_strings].
    now destruct (parse_row r t Henc Hr [] rows "") as [-> _].
  - assert (Hne2 : r2 :: table <> []) by congruence.
    change (join_strings LF (map (join_strings COMMA) (r :: r2 :: table)))
      with (join_strings COMMA r +:+ LF
            +:+ join_strings LF (map (join_strings COMMA) (r2 :: table))).
    destruct (parse_row r t Henc Hr [] rows
                (join_strings LF (map (join_strings COMMA) (r2 :: table)))) as [_ ->].
    rewrite (IH Hne2). now rewrite <- (assoc_L (++) rows [t]).
Qed.

(** ** The rows of exportToCSV *)

Lemma join_element_or (v : jsval) : join_element (js_or v (JStr "")) = text_of v.
Proof.
  unfold text_of, js_or.
  destruct v as [| |[]|[]|[]]; reflexivity.
Qed.

Lemma join_element_quoted (v : jsval) :
  join_element (quoted v) = DQ +:+ ToString v +:+ DQ.
Proof. reflexivity. Qed.

Lemma csv_row_cells (ld : lead) : csv_row ld = join_strings COMMA (row_cells ld).
Proof. apply join_as_strings. Qed.

Lemma headers_joined : join COMMA headers = header_line.
Proof. reflexivity. Qed.

Lemma csvContent_joined (leads : list lead) :
  csvContent leads = join_strings LF (header_line :: map csv_row leads).
Proof.
  unfold csvContent. rewrite headers_joined.
  change (JStr header_line :: map (fun ld => JStr (csv_row ld)) leads)
    with (map JStr (header_line :: []) ++ map (fun ld => JStr (csv_row ld)) leads).
  rewrite <- (map_map csv_row JStr), <- map_app. apply join_JStr.
Qed.

Lemma join_strings_cons (sep x : string) (l : list string) :
  join_strings sep (x :: l) = x +:+ foldr (fun y acc => sep +:+ y +:+ acc) "" l.
Proof.
  revert x. induction l as [|y l IH]; intros x.
  - cbn. now rewrite string_app_nil_r.
  - change (join_strings sep (x :: y :: l)) with (x +:+ sep +:+ join_strings sep (y :: l)).
    now rewrite IH.
Qed.

Lemma csvContent_rows (leads : list lead) :
  csvContent leads = header_line +:+ rows_text leads.
Proof.
  rewrite csvContent_joined, join_strings_cons. f_equal.
  unfold rows_text. induction leads as [|ld leads IH]; [reflexivity |].
  cbn [map foldr]. now rewrite IH.
Qed.

Lemma csvContent_table (leads : list lead) :
  csvContent leads
  = join_strings LF (map (join_strings COMMA) (header_names :: map row_cells leads)).
Proof.
  rewrite csvContent_joined. cbn [map]. f_equal. f_equal.
  rewrite map_map. apply map_ext. intros ld. apply csv_row_cells.
Qed.

Lemma csvContent_rfc4180_table (leads : list lead) :
  csvContent_rfc4180 leads
  = join_strings LF
      (map (join_strings COMMA)
         (header_names :: map (fun ld => map join_element (row_array_rfc4180 ld)) leads)).
Proof.
  unfold csvContent_rfc4180. rewrite headers_joined.
  change (JStr header_line
            :: map (fun ld => JStr (join COMMA (row_array_rfc4180 ld))) leads)
    with (map JStr (header_line :: [])
            ++ map (fun ld => JStr (join COMMA (row_array_rfc4180 ld))) leads).
  rewrite <- (map_map (fun ld => join COMMA (row_array_rfc4180 ld)) JStr), <- map_app.
  rewrite join_JStr. cbn [map app]. f_equal. f_equal.
  rewrite map_map. apply map_ext. intros ld. apply join_as_strings.
Qed.

Lemma header_encodes : Forall2 encodes header_names header_names.
Proof. repeat constructor. Qed.

Lemma encodes_verbatim (t : string) :
  quote_free t = true -> encodes (DQ +:+ t +:+ DQ) t.
Proof.
  intros H. rewrite <- (rfc4180_escape_quote_free t H) at 1. constructor.
Qed.

Lemma row_cells_encode (ld : lead) :
  forallb plain (lead_texts ld) = true ->
  Forall2 encodes (row_cells ld) (lead_texts ld).
Proof.
  unfold row_cells, row_array, lead_texts. cbn [map forallb].
  rewrite !andb_true_iff. intros (H1 & H2 & H3 & H4 & H5 & H6 & H7 & _).
  rewrite !join_element_quoted, !join_element_or. unfold text_of in *.
  repeat (constructor;
          [ first [ apply encodes_verbatim, plain_quote_free; assumption
                  | apply enc_bare; assumption ] | ]).
  constructor.
Qed.

Lemma row_cells_rfc4180_encode (ld : lead) :
  numbers_plain ld = true ->
  Forall2 encodes (map join_element (row_array_rfc4180 ld)) (lead_texts ld).
Proof.
  unfold numbers_plain, row_array_rfc4180, lead_texts. cbn [map].
  rewrite andb_true_iff. intros (H5 & H6).
  rewrite !join_element_or. unfold text_of in *.
  repeat (constructor;
          [ first [ apply enc_quoted | apply enc_bare; assumption ] | ]).
  constructor.
Qed.

Lemma row_array_length (ld : lead) : length (row_array ld) = 7.
Proof. reflexivity. Qed.

(** ** The claims on the export encoding *)

(** The texts written read back: for a collection whose written texts hold
    no comma, double quote or line feed, reading the CSV text of exportToCSV
    gives back the header and, row for row and field for field, the texts
    written; and for the encoder with the RFC 4180 escaping applied the same
    holds whatever the quoted fields contain. *)
Lemma csv_texts_read_back (leads : list lead) :
  (forallb (fun ld => forallb plain (lead_texts ld)) leads = true ->
   parse_csv (csvContent leads) = Some (header_names :: map lead_texts leads))
  /\ (forallb numbers_plain leads = true ->
      parse_csv (csvContent_rfc4180 leads) = Some (header_names :: map lead_texts leads)).
Proof.
  split; intros H; unfold parse_csv.
  - rewrite csvContent_table.
    apply (fun H1 H2 => parse_table _ (header_names :: map lead_texts leads) H1 H2 []);
      [| discriminate].
    constructor; [split; [discriminate | apply header_encodes] |].
    induction leads as [|ld leads IH]; [constructor |].
    cbn [forallb] in H. apply andb_true_iff in H as [Hld Hrest].
    cbn [map]. constructor; [| now apply IH].
    split; [discriminate | now apply row_cells_encode].
  - rewrite csvContent_rfc4180_table.
    apply (fun H1 H2 => parse_table _ (header_names :: map lead_texts leads) H1 H2 []);
      [| discriminate].
    constructor; [split; [discriminate | apply header_encodes] |].
    induction leads as [|ld leads IH]; [constructor |].
    cbn [forallb] in H. apply andb_true_iff in H as [Hld Hrest].
    cbn [map]. constructor; [| now apply IH].
    split; [discriminate | now apply row_cells_rfc4180_encode].
Qed.

Lemma kept_text (v : jsval) : kept v = true -> text_of v = data_text v.
Proof.
  unfold text_of, js_or.
  destruct v as [| |[]|x|[]]; cbn [kept]; try discriminate; try reflexivity.
  intros Hx. now rewrite Hx.
Qed.

Lemma present_text (v : jsval) : present v = true -> ToString v = data_text v.
Proof. destruct v; cbn [present]; try discriminate; reflexivity. Qed.

(** For a lead that is faithful the texts written are the data. *)
Lemma faithful_texts (ld : lead) : faithful ld = true -> lead_texts ld = lead_data ld.
Proof.
  unfold faithful. rewrite !andb_true_iff.
  intros ((((((H0 & H1) & H2) & H3) & H4) & H5) & H6).
  unfold lead_texts, lead_data.
  now rewrite (present_text _ H0), (kept_text _ H1), (kept_text _ H2), (kept_text _ H3),
    (kept_text _ H4), (kept_text _ H5), (kept_text _ H6).
Qed.

Lemma faithful_texts_all (leads : list lead) :
  forallb faithful leads = true -> map lead_texts leads = map lead_data leads.
Proof.
  induction leads as [|ld leads IH]; [reflexivity |].
  cbn [forallb map]. intros H. apply andb_true_iff in H as [Hld Hrest].
  now rewrite (faithful_texts ld Hld), (IH Hrest).
Qed.

(** C2, as the script has it: for a collection of leads that have a name
    and hold no value that [|| ''] drops (no false, 0 or NaN in a field
    other than the name), and whose data holds no comma, double quote or
    line feed, reading the CSV text of exportToCSV gives back the header
    and, row for row and field for field, the data of the leads (each value
    coerced to text, a missing one as the empty text); and for the encoder
    with the RFC 4180 escaping applied the same holds whatever the text
    fields contain, the data of the two bare numeric fields being plain. *)
Theorem csv_round_trip (leads : list lead) :
  (forallb faithful leads = true ->
   forallb (fun ld => forallb plain (lead_data ld)) leads = true ->
   parse_csv (csvContent leads) = Some (header_names :: map lead_data leads))
  /\ (forallb faithful leads = true ->
      forallb numeric_data_plain leads = true ->
      parse_csv (csvContent_rfc4180 leads) = Some (header_names :: map lead_data leads)).
Proof.
  split; intros Hf Hp; rewrite <- (faithful_texts_all leads Hf).
  - apply (proj1 (csv_texts_read_back leads)).
    clear -Hf Hp. induction leads as [|ld leads IH]; [reflexivity |].
    cbn [forallb] in *. apply andb_true_iff in Hf as [Hld Hf].
    apply andb_true_iff in Hp as [Hpl Hp].
    rewrite (faithful_texts ld Hld), Hpl. now apply IH.
  - apply (proj2 (csv_texts_read_back leads)).
    clear -Hf Hp. induction leads as [|ld leads IH]; [reflexivity |].
    cbn [forallb] in *. apply andb_true_iff in Hf as [Hld Hf].
    apply andb_true_iff in Hp as [Hpl Hp].
    rewrite (IH Hf Hp), andb_true_r.
    unfold faithful in Hld. rewrite !andb_true_iff in Hld.
    destruct Hld as ((((((_ & _) & _) & _) & H4) & H5) & _).
    unfold numbers_plain, numeric_data_plain in *.
    now rewrite (kept_text _ H4), (kept_text _ H5).
Qed.

(** C4: the CSV text is the header row Name,Address,Phone,Website,Rating,
    Reviews,Category followed by one row per lead, in the order of the
    collection and none left out; the rows are joined by line feeds and the
    seven fields of a row by commas; this is the text exportToCSV downloads
    for a collection that is not empty. *)
Theorem csv_header_then_rows (leads : list lead) :
  csvContent leads = join_strings LF (header_line :: map csv_row leads)
  /\ csvContent leads = header_line +:+ rows_text leads
  /\ length (map csv_row leads) = length leads
  /\ (forall i ld, leads !! i = Some ld ->
        (header_line :: map csv_row leads) !! S i = Some (csv_row ld))
  /\ (forall ld, csv_row ld = join_strings COMMA (row_cells ld)
                 /\ length (row_cells ld) = 7)
  /\ (forall s, this_leads s = LeadsArray leads -> leads <> [] ->
        fst (exportToCSV s) = Normal
        /\ downloaded (snd (exportToCSV s)) = downloaded s ++ [csvContent leads]).
Proof.
  split; [apply csvContent_joined |].
  split; [apply csvContent_rows |].
  split; [apply length_map |].
  split.
  { intros i ld Hi. change ((header_line :: map csv_row leads) !! S i)
      with (map csv_row leads !! i).
    revert i Hi. induction leads as [|x leads IH]; intros [|i] Hi;
      try discriminate Hi.
    - now injection Hi as ->.
    - now apply IH. }
  split; [intros ld; split; [apply csv_row_cells | reflexivity] |].
  intros s Hs Hne. unfold exportToCSV. rewrite Hs.
  destruct leads; [congruence | split; reflexivity].
Qed.

(** C5: a text field that is missing (address, phone, website, category) is
    written as the empty quoted field, every row has its seven columns, and
    rating and reviews_count are written bare, with no quotes around them:
    the text of the number when there is one, nothing when the value is
    missing. *)
Theorem missing_fields_keep_columns (ld : lead) :
  length (row_cells ld) = 7
  /\ (absent (prop ld "address") -> row_cells ld !! 1 = Some (DQ +:+ DQ))
  /\ (absent (prop ld "phone") -> row_cells ld !! 2 = Some (DQ +:+ DQ))
  /\ (absent (prop ld "website") -> row_cells ld !! 3 = Some (DQ +:+ DQ))
  /\ (absent (prop ld "category") -> row_cells ld !! 6 = Some (DQ +:+ DQ))
  /\ (absent (prop ld "rating") -> row_cells ld !! 4 = Some "")
  /\ (absent (prop ld "reviews_count") -> row_cells ld !! 5 = Some "")
  /\ (forall x, prop ld "rating" = JNum x -> ToBoolean (JNum x) = true ->
        row_cells ld !! 4 = Some (Number_toString x))
  /\ (forall x, prop ld "reviews_count" = JNum x -> ToBoolean (JNum x) = true ->
        row_cells ld !! 5 = Some (Number_toString x))
  /\ row_cells ld !! 4 = Some (text_of (prop ld "rating"))
  /\ row_cells ld !! 5 = Some (text_of (prop ld "reviews_count")).
Proof.
  assert (Hbare : forall v, absent v -> join_element (js_or v (JStr "")) = "")
    by (intros v [-> | ->]; reflexivity).
  assert (Hquoted : forall v, absent v ->
            join_element (quoted (js_or v (JStr ""))) = DQ +:+ DQ)
    by (intros v [-> | ->]; reflexivity).
  assert (Hnum : forall x, ToBoolean (JNum x) = true ->
            join_element (js_or (JNum x) (JStr "")) = Number_toString x)
    by (intros x Hx; unfold js_or; now rewrite Hx).
  unfold row_cells, row_array. cbn [map lookup list_lookup].
  split; [reflexivity |].
  do 6 (split; [intros Hv; f_equal; first [now apply Hquoted | now apply Hbare] |]).
  do 2 (split; [intros x -> Hx; f_equal; now apply Hnum |]).
  split; f_equal; apply join_element_or.
Qed.

(** C9: a rating or a review count that is there and is 0 is written as the
    empty field, and the row is the row of the same lead without the
    value. *)
Theorem zero_written_as_missing (ld : lead) (sgn : bool) :
  (prop ld "rating" = JNum (S754_zero sgn) ->
     row_cells ld !! 4 = Some ""
     /\ csv_row ld = csv_row (delete "rating" ld))
  /\ (prop ld "reviews_count" = JNum (S754_zero sgn) ->
        row_cells ld !! 5 = Some ""
        /\ csv_row ld = csv_row (delete "reviews_count" ld)).
Proof.
  split; intros H.
  - split; [unfold row_cells, row_array; now rewrite H |].
    unfold csv_row, row_array. rewrite H.
    unfold prop. rewrite lookup_delete_eq.
    now rewrite !lookup_delete_ne by discriminate.
  - split; [unfold row_cells, row_array; now rewrite H |].
    unfold csv_row, row_array. rewrite H.
    unfold prop. rewrite lookup_delete_eq.
    now rewrite !lookup_delete_ne by discriminate.
Qed.

(** C1, as the script has it: each of the five text fields is written
    between two double quotes with its text as it is, nothing escaped; so
    the field is the RFC 4180 quoted form of its text whenever the text
    holds no double quote. *)
Theorem text_fields_quoted_verbatim (ld : lead) (i : nat) :
  i ∈ [0; 1; 2; 3; 6] ->
  exists t,
    lead_texts ld !! i = Some t
    /\ row_cells ld !! i = Some (DQ +:+ t +:+ DQ)
    /\ (quote_free t = true ->
        row_cells ld !! i = Some (DQ +:+ rfc4180_escape t +:+ DQ)).
Proof.
  intros Hi.
  assert (Hcase : i = 0 \/ i = 1 \/ i = 2 \/ i = 3 \/ i = 6).
  { repeat (apply elem_of_cons in Hi as [-> | Hi]; [tauto |]).
    now apply elem_of_nil in Hi. }
  destruct Hcase as [-> | [-> | [-> | [-> | ->]]]];
    eexists; (split; [reflexivity |]); (split; [reflexivity |]);
    intros Hq; rewrite (rfc4180_escape_quote_free _ Hq); reflexivity.
Qed.

(** C6, as the script has it: exporting an empty collection produces no
    document; the user is alerted and nothing is downloaded.  (The text the
    encoding would give for it is the header row alone.) *)
Theorem export_of_nothing_alerts (s : state) :
  this_leads s = LeadsArray [] ->
  fst (exportToCSV s) = Return
  /\ downloaded (snd (exportToCSV s)) = downloaded s
  /\ alerts (snd (exportToCSV s)) = alerts s ++ ["No leads to export"]
  /\ csvContent [] = header_line.
Proof.
  intros H. unfold exportToCSV. rewrite H. repeat split.
Qed.

(** ** Frames of the statements *)

Lemma keeps_act {A : Type} (f : state -> A) (g : state -> state) :
  (forall s, f (g s) = f s) -> keeps f (act g).
Proof. intros H s. apply H. Qed.

Lemma keeps_skip {A : Type} (f : state -> A) : keeps f skip.
Proof. intros s. reflexivity. Qed.

Lemma keeps_ret {A : Type} (f : state -> A) : keeps f ret.
Proof. intros s. reflexivity. Qed.

Lemma keeps_throw {A : Type} (f : state -> A) : keeps f throw.
Proof. intros s. reflexivity. Qed.

Lemma keeps_seq {A : Type} (f : state -> A) (p q : stmt) :
  keeps f p -> keeps f q -> keeps f (p >> q).
Proof.
  intros Hp Hq s. unfold seq. specialize (Hp s).
  destruct (p s) as [[] s1]; cbn [snd] in *; [| assumption | assumption].
  now rewrite Hq.
Qed.

Lemma keeps_try {A : Type} (f : state -> A) (body handler fin : stmt) :
  keeps f body -> keeps f handler -> keeps f fin ->
  keeps f (try_catch_finally body handler fin).
Proof.
  intros Hb Hh Hf s. unfold try_catch_finally.
  specialize (Hb s). destruct (body s) as [c s1]. cbn [snd] in Hb.
  assert (H2 : f (snd (match c with Throw => handler s1 | _ => (c, s1) end)) = f s).
  { destruct c; cbn [snd]; try assumption. now rewrite Hh. }
  destruct (match c with Throw => handler s1 | _ => (c, s1) end) as [c' s2].
  cbn [snd] in H2. specialize (Hf s2). destruct (fin s2) as [cf s3].
  cbn [snd] in Hf. destruct cf; cbn [snd]; congruence.
Qed.

Lemma keeps_forEach_lead {A : Type} (f : state -> A) (l : list lead) :
  (forall ld s, f (appendChild ld s) = f s) -> keeps f (forEach_lead l).
Proof.
  intros H. induction l as [|ld l IH]; [apply keeps_skip |].
  cbn [forEach_lead]. apply keeps_seq; [| exact IH].
  destruct (createLeadElement_raises ld); [apply keeps_throw | apply keeps_act, H].
Qed.

Lemma keeps_displayResults {A : Type} (f : state -> A) :
  (forall p s, f (set_resultsContent p s) = f s) -> keeps f displayResults.
Proof.
  intros H. unfold displayResults. apply keeps_seq; [apply keeps_act, H |].
  intros s. destruct (this_leads s) as [l | z]; [| reflexivity].
  apply keeps_forEach_lead. intros ld s0. unfold appendChild.
  destruct (resultsContent s0); apply H.
Qed.

Lemma keeps_traffic_after_json (d : json_data) : keeps traffic (after_json d).
Proof.
  destruct d as [|p]; [apply keeps_throw |].
  cbn [after_json]. destruct (ToBoolean (p_error p)).
  - apply keeps_seq; [now apply keeps_act | apply keeps_ret].
  - apply keeps_seq; [now apply keeps_act |].
    apply keeps_seq; [now apply keeps_displayResults |].
    apply keeps_seq; [| now apply keeps_act].
    destruct (p_stats p); [now apply keeps_act | apply keeps_throw].
Qed.

Lemma traffic_resume (body : stmt) (s : state) :
  keeps traffic body -> traffic (resume body s) = traffic s.
Proof.
  intros H. unfold resume.
  apply (keeps_try traffic); [exact H | now apply keeps_act | now apply keeps_act].
Qed.

Lemma startScraping_valid (f : form) (s : state) :
  query f <> "" ->
  startScraping f s
  = call_fetch (mkRequest "/scrape" "POST" "application/json" f)
               (clearResults (showLoading true s)).
Proof.
  intros H. unfold startScraping. cbn.
  destruct (query f); [congruence | reflexivity].
Qed.

Lemma scrapeBtn_showLoading (show : bool) (s : state) :
  scrapeBtn_disabled (showLoading show s) = show.
Proof.
  unfold scrapeBtn_disabled, showLoading. cbn [page set_page].
  rewrite lookup_insert_ne by discriminate. rewrite lookup_insert_eq.
  reflexivity.
Qed.

Lemma scrapeBtn_startScraping (f : form) (s : state) :
  query f <> "" -> scrapeBtn_disabled (startScraping f s) = true.
Proof.
  intros H. rewrite (startScraping_valid f s H).
  transitivity (scrapeBtn_disabled (showLoading true s));
    [| apply scrapeBtn_showLoading].
  unfold scrapeBtn_disabled, call_fetch, clearResults. cbn [page set_page set_resultsContent].
  now rewrite lookup_insert_ne by discriminate.
Qed.

Lemma scrapeBtn_after_resume (body : stmt) (s : state) :
  scrapeBtn_disabled (resume body s) = false.
Proof.
  unfold resume, try_catch_finally.
  destruct (body s) as [c s1].
  destruct (match c with Throw => on_error s1 | _ => (c, s1) end) as [c' s2].
  cbn [act snd]. apply scrapeBtn_showLoading.
Qed.

Lemma in_flight_resume (body : stmt) (s : state) :
  keeps traffic body -> in_flight (resume body s) = in_flight s.
Proof.
  intros H. pose proof (traffic_resume body s H) as Ht.
  unfold traffic in Ht. unfold in_flight. congruence.
Qed.

(** ** The scrape request *)

Lemma step_one_at_a_time (s s' : state) (e : event) :
  one_at_a_time s -> step s e = Some s' -> one_at_a_time s'.
Proof.
  intros [Hle Hdis] Hstep. destruct e as [f | | ok | d]; cbn [step] in Hstep.
  - destruct (scrapeBtn_disabled s) eqn:Hbtn; [discriminate |].
    injection Hstep as <-.
    assert (Hidle : in_flight s = 0).
    { destruct (in_flight s) as [|[|n]];
        [reflexivity | discriminate (Hdis eq_refl) | lia]. }
    unfold in_flight in Hidle.
    destruct (decide (query f = "")) as [Hq | Hq].
    + unfold startScraping. rewrite Hq. cbn.
      split; [unfold in_flight; cbn; lia |].
      unfold in_flight; cbn. lia.
    + split; [| intros _; now apply scrapeBtn_startScraping].
      rewrite (startScraping_valid f s Hq). unfold in_flight; cbn; lia.
  - injection Hstep as <-. unfold exportToCSV.
    destruct (this_leads s) as [[|ld l] | []]; cbn [snd]; now split.
  - unfold in_flight in *.
    destruct (awaiting_fetch s) as [|n] eqn:Hn; [discriminate |].
    destruct ok; injection Hstep as <-.
    + split; [cbn; lia |]. intros H. apply Hdis. cbn in H. lia.
    + unfold one_at_a_time.
      rewrite (in_flight_resume throw _ (keeps_throw traffic)).
      unfold in_flight. cbn. split; lia.
  - unfold in_flight in *.
    destruct (awaiting_json s) as [|n] eqn:Hn; [discriminate |].
    injection Hstep as <-.
    unfold one_at_a_time. rewrite in_flight_resume.
    + unfold in_flight. cbn. split; lia.
    + destruct d; [apply keeps_traffic_after_json | apply keeps_throw].
Qed.

Lemma run_one_at_a_time (evs : list event) :
  forall s s', one_at_a_time s -> run s evs = Some s' -> one_at_a_time s'.
Proof.
  induction evs as [|e evs IH]; intros s s' Hinv Hrun; cbn [run] in Hrun.
  - now injection Hrun as <-.
  - destruct (step s e) as [s1|] eqn:Hstep; [| discriminate].
    exact (IH s1 s' (step_one_at_a_time s s1 e Hinv Hstep) Hrun).
Qed.

(** C8: in every state the page can reach there is at most one scrape in
    flight; while there is one the submit control is disabled and the form
    cannot be submitted; and whichever way the scrape ends, the step that
    ends it enables the control again. *)
Theorem one_scrape_in_flight (p : panel) (dom : gmap string jsval)
    (evs : list event) (s : state) :
  run (boot p dom) evs = Some s ->
  in_flight s <= 1
  /\ (in_flight s = 1 ->
      scrapeBtn_disabled s = true /\ forall f, step s (Submit f) = None)
  /\ (forall e s', step s e = Some s' -> in_flight s' < in_flight s ->
        scrapeBtn_disabled s' = false).
Proof.
  intros Hrun.
  assert (Hinv : one_at_a_time s).
  { apply (run_one_at_a_time evs (boot p dom) s); [| exact Hrun].
    split; [cbn; lia | cbn; discriminate]. }
  destruct Hinv as [Hle Hdis]. split; [exact Hle |]. split.
  - intros H1. split; [now apply Hdis |].
    intros f. cbn [step]. now rewrite (Hdis H1).
  - intros e s' Hstep Hlt. destruct e as [f | | ok | d]; cbn [step] in Hstep.
    + destruct (scrapeBtn_disabled s); [discriminate |]. injection Hstep as <-.
      exfalso. unfold startScraping in Hlt.
      destruct (negb (ToBoolean (JStr (query f)))); unfold in_flight in Hlt;
        cbn in Hlt; lia.
    + injection Hstep as <-. exfalso. unfold exportToCSV in Hlt.
      destruct (this_leads s) as [[|ld l] | []]; cbn [snd] in Hlt;
        unfold in_flight in Hlt; cbn in Hlt; lia.
    + destruct (awaiting_fetch s) as [|n] eqn:Hn; [discriminate |].
      destruct ok; injection Hstep as <-.
      * exfalso. unfold in_flight in Hlt. cbn in Hlt. rewrite Hn in Hlt. lia.
      * apply scrapeBtn_after_resume.
    + destruct (awaiting_json s) as [|n] eqn:Hn; [discriminate |].
      injection Hstep as <-. apply scrapeBtn_after_resume.
Qed.

Lemma fetched_resume (body : stmt) (s : state) :
  keeps traffic body -> fetched (resume body s) = fetched s.
Proof.
  intros H. pose proof (traffic_resume body s H) as Ht.
  unfold traffic in Ht. congruence.
Qed.

Lemma step_no_query (s s' : state) (e : event) :
  step s e = Some s' -> no_query e = true -> fetched s' = fetched s.
Proof.
  intros Hstep He. destruct e as [f | | ok | d]; cbn [step] in Hstep.
  - destruct (scrapeBtn_disabled s); [discriminate |]. injection Hstep as <-.
    cbn in He. apply String.eqb_eq in He. unfold startScraping. now rewrite He.
  - injection Hstep as <-. unfold exportToCSV.
    destruct (this_leads s) as [[|ld l] | []]; reflexivity.
  - destruct (awaiting_fetch s); [discriminate |].
    destruct ok; injection Hstep as <-; [reflexivity |].
    now rewrite fetched_resume by apply keeps_throw.
  - destruct (awaiting_json s); [discriminate |]. injection Hstep as <-.
    rewrite fetched_resume; [reflexivity |].
    destruct d; [apply keeps_traffic_after_json | apply keeps_throw].
Qed.

(** C3: with an empty query startScraping shows the validation error and
    returns: no request is sent and nothing is left in flight; and over any
    sequence of events in which no other query is submitted, no request is
    ever sent. *)
Theorem empty_query_never_fetches :
  (forall loc mx s,
      startScraping (mkForm "" loc mx) s = showError (JStr "Please enter a search query") s
      /\ resultsContent (startScraping (mkForm "" loc mx) s)
         = ErrorPanel "Please enter a search query"
      /\ fetched (startScraping (mkForm "" loc mx) s) = fetched s
      /\ in_flight (startScraping (mkForm "" loc mx) s) = in_flight s
      /\ this_leads (startScraping (mkForm "" loc mx) s) = this_leads s)
  /\ (forall evs s s',
        run s evs = Some s' -> forallb no_query evs = true -> fetched s' = fetched s).
Proof.
  split; [intros loc mx s; repeat split |].
  induction evs as [|e evs IH]; intros s s' Hrun Hev; cbn [run forallb] in *.
  - now injection Hrun as <-.
  - destruct (step s e) as [s1|] eqn:Hstep; [| discriminate].
    apply andb_true_iff in Hev as [He Hev].
    rewrite (IH s1 s' Hrun Hev). exact (step_no_query s s1 e Hstep He).
Qed.

(** C10: the validation of startScraping turns away the empty query and no
    other: a query made of white space only, like every query that is not
    empty, is sent to the server as typed. *)
Theorem only_empty_query_rejected (f : form) (s : state) :
  (fetched (startScraping f s) = fetched s <-> query f = "")
  /\ (query f <> "" -> whitespace_only (query f) = true ->
      fetched (startScraping f s)
      = fetched s ++ [mkRequest "/scrape" "POST" "application/json" f]
      /\ awaiting_fetch (startScraping f s) = S (awaiting_fetch s)
      /\ resultsContent (startScraping f s) = Placeholder).
Proof.
  split.
  - split.
    + intros H. destruct (decide (query f = "")) as [Hq | Hq]; [exact Hq |].
      rewrite (startScraping_valid f s Hq) in H. cbn in H.
      apply (f_equal length) in H. rewrite length_app in H. cbn in H. lia.
    + intros Hq. unfold startScraping. now rewrite Hq.
  - intros Hq _. rewrite (startScraping_valid f s Hq). repeat split.
Qed.

(** ** What a failure leaves alone *)

Lemma held_showLoading (show : bool) (s : state) : held (showLoading show s) = held s.
Proof.
  unfold held, showLoading. cbn [this_leads page set_page].
  now rewrite !lookup_insert_ne by discriminate.
Qed.

Lemma held_clearResults (s : state) : held (clearResults s) = held s.
Proof.
  unfold held, clearResults. cbn [this_leads page set_page set_resultsContent].
  now rewrite lookup_insert_ne by discriminate.
Qed.

Lemma held_startScraping (f : form) (s : state) : held (startScraping f s) = held s.
Proof.
  unfold startScraping. destruct (negb (ToBoolean (JStr (query f)))); [reflexivity |].
  transitivity (held (clearResults (showLoading true s))); [reflexivity |].
  now rewrite held_clearResults, held_showLoading.
Qed.

Lemma held_resume (body : stmt) (s : state) :
  keeps held body -> held (resume body s) = held s.
Proof.
  intros H. unfold resume. apply (keeps_try held); [exact H | now apply keeps_act |].
  apply keeps_act, held_showLoading.
Qed.

Lemma held_exportToCSV (s : state) : held (snd (exportToCSV s)) = held s.
Proof.
  unfold held, exportToCSV.
  destruct (this_leads s) as [[|ld l] | []] eqn:E; cbn [snd this_leads page];
    rewrite ?E; reflexivity.
Qed.

Lemma step_keeps_held (s s' : state) (e : event) :
  step s e = Some s' -> delivers_leads e = false -> held s' = held s.
Proof.
  intros Hstep He. destruct e as [f | | ok | d]; cbn [step] in Hstep.
  - destruct (scrapeBtn_disabled s); [discriminate |].
    injection Hstep as <-. apply held_startScraping.
  - injection Hstep as <-. apply held_exportToCSV.
  - destruct (awaiting_fetch s); [discriminate |].
    destruct ok; injection Hstep as <-; [reflexivity |].
    now rewrite held_resume by apply keeps_throw.
  - destruct (awaiting_json s); [discriminate |].
    injection Hstep as <-. rewrite held_resume; [reflexivity |].
    destruct d as [[|p] |]; try apply keeps_throw.
    cbn in He. apply negb_false_iff in He. cbn [after_json]. rewrite He.
    apply keeps_seq; [now apply keeps_act | apply keeps_ret].
Qed.

Lemma export_reads_leads (s s' : state) :
  this_leads s' = this_leads s ->
  fst (exportToCSV s') = fst (exportToCSV s)
  /\ exists d, downloaded (snd (exportToCSV s)) = downloaded s ++ d
               /\ downloaded (snd (exportToCSV s')) = downloaded s' ++ d.
Proof.
  intros H. unfold exportToCSV. rewrite H.
  destruct (this_leads s) as [[|ld l] | []]; cbn [fst snd downloaded];
    (split; [reflexivity |]);
    first [ exists []; now rewrite !app_nil_r | eexists; split; reflexivity ].
Qed.

(** Over tasks none of which is a response without an error, [this.leads]
    and the visibility of the export section stay as they were, and an
    export afterwards completes the same way and downloads the same text. *)
Lemma no_delivery_keeps_leads (s s' : state) (evs : list event) :
  run s evs = Some s' ->
  forallb (fun e => negb (delivers_leads e)) evs = true ->
  this_leads s' = this_leads s
  /\ page s' !! "exportSection.style.display" = page s !! "exportSection.style.display"
  /\ fst (exportToCSV s') = fst (exportToCSV s)
  /\ exists d, downloaded (snd (exportToCSV s)) = downloaded s ++ d
               /\ downloaded (snd (exportToCSV s')) = downloaded s' ++ d.
Proof.
  intros Hrun Hev.
  assert (Hheld : held s' = held s).
  { revert s Hrun Hev. induction evs as [|e evs IH]; intros s Hrun Hev;
      cbn [run forallb] in *.
    - now injection Hrun as <-.
    - destruct (step s e) as [s1|] eqn:Hstep; [| discriminate].
      apply andb_true_iff in Hev as [He Hev]. apply negb_true_iff in He.
      rewrite (IH s1 Hrun Hev). exact (step_keeps_held s s1 e Hstep He). }
  unfold held in Hheld. injection Hheld as Hl Hp.
  split; [exact Hl |]. split; [exact Hp |]. now apply export_reads_leads.
Qed.

Lemma failure_does_not_deliver (e : event) (m : string) :
  failure_message e = Some m -> delivers_leads e = false.
Proof.
  destruct e as [f | | ok | [[|p] |]]; cbn; try reflexivity.
  destruct (ToBoolean (p_error p)); [reflexivity | discriminate].
Qed.

Lemma step_failure_panel (s s' : state) (e : event) (m : string) :
  step s e = Some s' -> failure_message e = Some m ->
  resultsContent s' = ErrorPanel m
  /\ page s' !! "stats.style.display" = page s !! "stats.style.display".
Proof.
  intros Hstep Hm. destruct e as [f | | ok | d]; cbn [step failure_message] in *.
  - destruct (scrapeBtn_disabled s); [discriminate |]. injection Hstep as <-.
    unfold startScraping. destruct (ToBoolean (JStr (query f))); [discriminate |].
    injection Hm as <-. split; reflexivity.
  - discriminate.
  - destruct (awaiting_fetch s); [discriminate |].
    destruct ok; [discriminate |]. injection Hstep as <-. injection Hm as <-.
    unfold resume, try_catch_finally, throw, on_error, act, showLoading, showError.
    cbn [snd resultsContent page set_page set_resultsContent set_awaiting].
    split; [reflexivity |]. now rewrite !lookup_insert_ne by discriminate.
  - destruct (awaiting_json s); [discriminate |]. injection Hstep as <-.
    destruct d as [[|p] |].
    + injection Hm as <-.
      unfold resume, try_catch_finally, after_json, throw, on_error, act, showLoading,
        showError.
      cbn [snd resultsContent page set_page set_resultsContent set_awaiting].
      split; [reflexivity |]. now rewrite !lookup_insert_ne by discriminate.
    + cbn [after_json]. destruct (ToBoolean (p_error p)); [| discriminate].
      injection Hm as <-.
      unfold resume, try_catch_finally, seq, ret, act, showLoading, showError.
      cbn [snd resultsContent page set_page set_resultsContent set_awaiting].
      split; [reflexivity |]. now rewrite !lookup_insert_ne by discriminate.
    + injection Hm as <-.
      unfold resume, try_catch_finally, throw, on_error, act, showLoading, showError.
      cbn [snd resultsContent page set_page set_resultsContent set_awaiting].
      split; [reflexivity |]. now rewrite !lookup_insert_ne by discriminate.
Qed.

(** C7, as the script has it.  Over tasks none of which is a response
    without an error, [this.leads] is not assigned and the export section
    stays as visible as it was, so an export afterwards completes the same
    way and downloads the same text as one before.  The collection does not
    stay displayed: a failure that comes before the assignment (the empty
    query, the request or the reading of the body that throws, the response
    that carries an error) leaves its message in the results panel, and the
    stats block as that task found it; and the submission of a query that is
    not empty has put the placeholder in the panel and hidden the stats.
    (The response without an error whose rendering raises is not among these
    failures.) *)
Theorem failed_scrape_keeps_leads :
  (forall s s' evs,
      run s evs = Some s' ->
      forallb (fun e => negb (delivers_leads e)) evs = true ->
      this_leads s' = this_leads s
      /\ page s' !! "exportSection.style.display" = page s !! "exportSection.style.display"
      /\ fst (exportToCSV s') = fst (exportToCSV s)
      /\ exists d, downloaded (snd (exportToCSV s)) = downloaded s ++ d
                   /\ downloaded (snd (exportToCSV s')) = downloaded s' ++ d)
  /\ (forall s s' e m,
        step s e = Some s' -> failure_message e = Some m ->
        delivers_leads e = false
        /\ this_leads s' = this_leads s
        /\ resultsContent s' = ErrorPanel m
        /\ page s' !! "stats.style.display" = page s !! "stats.style.display")
  /\ (forall s s' f,
        step s (Submit f) = Some s' -> query f <> "" ->
        this_leads s' = this_leads s
        /\ resultsContent s' = Placeholder
        /\ page s' !! "stats.style.display" = Some (JStr "none")).
Proof.
  split; [exact no_delivery_keeps_leads |]. split.
  - intros s s' e m Hstep Hm.
    pose proof (failure_does_not_deliver e m Hm) as He.
    split; [exact He |]. split.
    + pose proof (step_keeps_held s s' e Hstep He) as Hh. unfold held in Hh. congruence.
    + exact (step_failure_panel s s' e m Hstep Hm).
  - intros s s' f Hstep Hq. cbn [step] in Hstep.
    destruct (scrapeBtn_disabled s); [discriminate |]. injection Hstep as <-.
    rewrite (startScraping_valid f s Hq).
    unfold call_fetch, clearResults, showLoading.
    cbn [this_leads resultsContent page set_page set_resultsContent].
    repeat split. now rewrite lookup_insert_eq.
Qed.

(** ** More on the export encoding *)

Lemma rows_text_app (l1 l2 : list lead) :
  rows_text (l1 ++ l2) = rows_text l1 +:+ rows_text l2.
Proof.
  unfold rows_text. induction l1 as [|ld l1 IH]; [reflexivity |].
  cbn [app foldr]. rewrite IH. now rewrite !string_app_assoc.
Qed.

(** X1: the text of a collection made of two parts is the text of the first
    part followed by the rows of the second: leads that are appended only
    append rows. *)
Theorem csvContent_app (l1 l2 : list lead) :
  csvContent (l1 ++ l2) = csvContent l1 +:+ rows_text l2.
Proof.
  rewrite !csvContent_rows, rows_text_app. now rewrite string_app_assoc.
Qed.

(** The row of a lead is a function of the seven properties the export
    reads. *)
Lemma csv_row_ext (ld1 ld2 : lead) :
  (forall k, k ∈ exported_keys -> prop ld1 k = prop ld2 k) ->
  csv_row ld1 = csv_row ld2.
Proof.
  intros H. unfold csv_row, row_array.
  rewrite !(H "name"), !(H "address"), !(H "phone"), !(H "website"),
    !(H "rating"), !(H "reviews_count"), !(H "category");
    [reflexivity | ..]; unfold exported_keys; set_solver.
Qed.

Lemma prop_insert_ne (ld : lead) (k k' : string) (v : jsval) :
  k <> k' -> prop (<[k := v]> ld) k' = prop ld k'.
Proof. intros H. unfold prop. now rewrite lookup_insert_ne. Qed.

Lemma prop_delete_ne (ld : lead) (k k' : string) :
  k <> k' -> prop (delete k ld) k' = prop ld k'.
Proof. intros H. unfold prop. now rewrite lookup_delete_ne. Qed.

Lemma prop_insert_eq (ld : lead) (k : string) (v : jsval) :
  prop (<[k := v]> ld) k = v.
Proof. unfold prop. now rewrite lookup_insert_eq. Qed.

Lemma prop_delete_eq (ld : lead) (k : string) : prop (delete k ld) k = JUndefined.
Proof. unfold prop. now rewrite lookup_delete_eq. Qed.

(** Reading a property through an update of another one. *)
Ltac prop_other :=
  repeat match goal with
         | |- context [prop (delete ?k0 ?l) ?k'] =>
             rewrite (prop_delete_ne l k0 k') by discriminate
         | |- context [prop (<[?k0 := ?v]> ?l) ?k'] =>
             rewrite (prop_insert_ne l k0 k' v) by discriminate
         end.

(** X2: the export reads seven properties of a lead and no other: setting
    or removing any other property leaves the row as it is. *)
Theorem other_properties_not_exported (ld : lead) (k : string) (v : jsval) :
  k ∉ exported_keys ->
  csv_row (<[k := v]> ld) = csv_row ld /\ csv_row (delete k ld) = csv_row ld.
Proof.
  intros Hk. split; apply csv_row_ext; intros k' Hk'.
  - apply prop_insert_ne. intros ->. contradiction.
  - apply prop_delete_ne. intros ->. contradiction.
Qed.

Lemma js_or_falsy (v d : jsval) : ToBoolean v = false -> js_or v d = d.
Proof. intros H. unfold js_or. now rewrite H. Qed.

(** X3: in the six fields read through [|| ''] every falsy value (false, 0,
    NaN, the empty string, null) is written as a missing one: the row is the
    row of the lead without the property. *)
Theorem falsy_written_as_missing (ld : lead) (k : string) :
  k ∈ defaulted_keys ->
  ToBoolean (prop ld k) = false ->
  csv_row ld = csv_row (delete k ld).
Proof.
  intros Hk Hv.
  assert (Hor : js_or (prop ld k) (JStr "") = js_or (prop (delete k ld) k) (JStr "")).
  { rewrite prop_delete_eq. now rewrite (js_or_falsy _ _ Hv). }
  assert (Hcase : k = "address" \/ k = "phone" \/ k = "website" \/ k = "rating"
                  \/ k = "reviews_count" \/ k = "category").
  { unfold defaulted_keys in Hk.
    repeat (apply elem_of_cons in Hk as [-> | Hk]; [tauto |]).
    now apply elem_of_nil in Hk. }
  unfold csv_row, row_array.
  destruct Hcase as [-> | [-> | [-> | [-> | [-> | ->]]]]];
    rewrite Hor; prop_other; reflexivity.
Qed.

(** X4: the name is the one text field with no default: a lead without a
    name is exported with the name undefined, a lead whose name is null with
    the name null, exactly as leads that bear these words as names. *)
Theorem name_not_defaulted (ld : lead) :
  row_cells (delete "name" ld) !! 0 = Some (DQ +:+ "undefined" +:+ DQ)
  /\ csv_row (delete "name" ld) = csv_row (<["name" := JStr "undefined"]> ld)
  /\ csv_row (<["name" := JNull]> ld) = csv_row (<["name" := JStr "null"]> ld).
Proof.
  split; [unfold row_cells, row_array; now rewrite prop_delete_eq |].
  split; unfold csv_row, row_array;
    rewrite ?prop_delete_eq, ?prop_insert_eq; prop_other; reflexivity.
Qed.

Lemma row_cells_encode_quote_free (ld : lead) :
  quotes_absent ld = true -> numbers_plain ld = true ->
  Forall2 encodes (row_cells ld) (lead_texts ld).
Proof.
  unfold quotes_absent, numbers_plain, row_cells, row_array, lead_texts. cbn [map].
  rewrite !andb_true_iff. intros ((((H1 & H2) & H3) & H4) & H7) (H5 & H6).
  rewrite !join_element_quoted, !join_element_or. unfold text_of in *.
  repeat (constructor;
          [ first [ apply encodes_verbatim; assumption
                  | apply enc_bare; assumption ] | ]).
  constructor.
Qed.

(** X5: the text the script writes reads back field for field whenever no
    text field holds a double quote and the two numeric cells are plain:
    commas and line feeds inside the text fields do no harm, being between
    quotes. *)
Theorem csv_round_trip_without_quotes (leads : list lead) :
  forallb (fun ld => quotes_absent ld && numbers_plain ld) leads = true ->
  parse_csv (csvContent leads) = Some (header_names :: map lead_texts leads).
Proof.
  intros H. unfold parse_csv. rewrite csvContent_table.
  apply (fun H1 H2 => parse_table _ (header_names :: map lead_texts leads) H1 H2 []);
    [| discriminate].
  constructor; [split; [discriminate | apply header_encodes] |].
  induction leads as [|ld leads IH]; [constructor |].
  cbn [forallb] in H. apply andb_true_iff in H as [Hld Hrest].
  apply andb_true_iff in Hld as [Hq Hn].
  cbn [map]. constructor; [| now apply IH].
  split; [discriminate | now apply row_cells_encode_quote_free].
Qed.

(** ** The card of a lead *)

(** X6: what the card shows of a field that is falsy.  Without a rating
    there is no rating block, so neither the stars nor the review count
    show; without an address the card reads N/A, as for a lead whose address
    is N/A; without a phone or a website the card is the card of the lead
    with the property removed. *)
Theorem card_of_falsy_fields (stars stars' : string) (ld : lead) :
  (ToBoolean (prop ld "rating") = false ->
     card_innerHTML stars ld = card_innerHTML stars' (delete "reviews_count" ld))
  /\ (ToBoolean (prop ld "address") = false ->
      card_innerHTML stars ld = card_innerHTML stars (<["address" := JStr "N/A"]> ld))
  /\ (ToBoolean (prop ld "phone") = false ->
      card_innerHTML stars ld = card_innerHTML stars (delete "phone" ld))
  /\ (ToBoolean (prop ld "website") = false ->
      card_innerHTML stars ld = card_innerHTML stars (delete "website" ld)).
Proof.
  repeat split; intros H;
    unfold card_innerHTML, phone_markup, website_markup, rating_markup, reviews_markup;
    rewrite ?prop_delete_eq, ?prop_insert_eq; prop_other;
    rewrite ?H, ?(js_or_falsy _ _ H); reflexivity.
Qed.

(** ** displayResults *)

Lemma forEach_lead_all (l : list lead) :
  forall acc s,
    resultsContent s = LeadCards acc ->
    forallb (fun ld => negb (createLeadElement_raises ld)) l = true ->
    forEach_lead l s = (Normal, set_resultsContent (LeadCards (acc ++ l)) s).
Proof.
  induction l as [|ld l IH]; intros acc s Hs Hok.
  - rewrite app_nil_r. destruct s. cbn in Hs. now subst.
  - cbn [forallb] in Hok. apply andb_true_iff in Hok as [Hld Hok].
    apply negb_true_iff in Hld. cbn [forEach_lead]. rewrite Hld.
    unfold seq, act, appendChild. rewrite Hs.
    rewrite (IH (acc ++ [ld])); [| reflexivity | exact Hok].
    now rewrite <- (assoc_L (++) acc [ld] l).
Qed.

Lemma forEach_lead_raise (l1 l2 : list lead) (ld : lead) :
  forall acc s,
    resultsContent s = LeadCards acc ->
    forallb (fun x => negb (createLeadElement_raises x)) l1 = true ->
    createLeadElement_raises ld = true ->
    forEach_lead (l1 ++ ld :: l2) s = (Throw, set_resultsContent (LeadCards (acc ++ l1)) s).
Proof.
  induction l1 as [|x l1 IH]; intros acc s Hs Hok Hld.
  - cbn [app forEach_lead]. rewrite Hld. unfold seq, throw.
    rewrite app_nil_r. destruct s. cbn in Hs. now subst.
  - cbn [forallb] in Hok. apply andb_true_iff in Hok as [Hx Hok].
    apply negb_true_iff in Hx. cbn [app forEach_lead]. rewrite Hx.
    unfold seq, act, appendChild. rewrite Hs.
    rewrite (IH (acc ++ [x])); [| reflexivity | exact Hok | exact Hld].
    now rewrite <- (assoc_L (++) acc [x] l1).
Qed.

Lemma displayResults_array (l : list lead) (s : state) :
  this_leads s = LeadsArray l ->
  displayResults s = forEach_lead l (set_resultsContent (LeadCards []) s).
Proof. intros H. unfold displayResults, seq, act. cbn [this_leads set_resultsContent]. now rewrite H. Qed.

Lemma displayResults_all (l : list lead) (s : state) :
  this_leads s = LeadsArray l ->
  forallb (fun ld => negb (createLeadElement_raises ld)) l = true ->
  displayResults s = (Normal, set_resultsContent (LeadCards l) s).
Proof.
  intros Hs Hok. rewrite (displayResults_array l s Hs).
  now rewrite (forEach_lead_all l [] (set_resultsContent (LeadCards []) s) eq_refl Hok).
Qed.

(** X7: when no card raises, displayResults puts on the page one card per
    lead of [this.leads], in the order of the array, in place of whatever
    the panel showed, and touches nothing else; running it again changes
    nothing. *)
Theorem displayResults_shows_all (l : list lead) (s : state) :
  this_leads s = LeadsArray l ->
  forallb (fun ld => negb (createLeadElement_raises ld)) l = true ->
  displayResults s = (Normal, set_resultsContent (LeadCards l) s)
  /\ displayResults (snd (displayResults s)) = displayResults s.
Proof.
  intros Hs Hok. split; [now apply displayResults_all |].
  rewrite (displayResults_all l s Hs Hok). cbn [snd].
  now rewrite (displayResults_all l (set_resultsContent (LeadCards l) s) Hs Hok).
Qed.

(** X8: displayResults stops at the first card that raises: it throws, and
    the panel holds the cards of the leads before that one and no other;
    when [this.leads] is not an array it throws with the panel emptied. *)
Theorem displayResults_stops_at_raise (s : state) :
  (forall l1 ld l2,
      this_leads s = LeadsArray (l1 ++ ld :: l2) ->
      forallb (fun x => negb (createLeadElement_raises x)) l1 = true ->
      createLeadElement_raises ld = true ->
      displayResults s = (Throw, set_resultsContent (LeadCards l1) s))
  /\ (forall z, this_leads s = NotAnArray z ->
        displayResults s = (Throw, set_resultsContent (LeadCards []) s)).
Proof.
  split.
  - intros l1 ld l2 Hs Hok Hld. rewrite (displayResults_array _ s Hs).
    now rewrite (forEach_lead_raise l1 l2 ld [] (set_resultsContent (LeadCards []) s)
                  eq_refl Hok Hld).
  - intros z Hs. unfold displayResults, seq, act.
    cbn [this_leads set_resultsContent]. now rewrite Hs.
Qed.

(** ** The end of a scrape *)

Lemma forEach_lead_some_raise (l : list lead) :
  forall acc s,
    resultsContent s = LeadCards acc ->
    forallb (fun ld => negb (createLeadElement_raises ld)) l = false ->
    exists cards, forEach_lead l s = (Throw, set_resultsContent (LeadCards cards) s).
Proof.
  induction l as [|ld l IH]; intros acc s Hs Hok; [discriminate Hok |].
  cbn [forallb] in Hok. cbn [forEach_lead].
  destruct (createLeadElement_raises ld) eqn:Hld.
  - exists acc. unfold seq, throw. destruct s. cbn in Hs. now subst.
  - cbn [negb andb] in Hok. unfold seq, act, appendChild. rewrite Hs.
    destruct (IH (acc ++ [ld]) (set_resultsContent (LeadCards (acc ++ [ld])) s)
                eq_refl Hok) as [cards Hcards].
    exists cards. now rewrite Hcards.
Qed.

Lemma after_json_renders (p : payload) (l : list lead) (st : stats) (s : state) :
  ToBoolean (p_error p) = false ->
  p_leads p = LeadsArray l -> p_stats p = Some st ->
  forallb (fun ld => negb (createLeadElement_raises ld)) l = true ->
  after_json (JsonObject p) s
  = (Normal,
     showExportSection true
       (snd (updateStats (Some st)
               (set_resultsContent (LeadCards l) (set_this_leads (LeadsArray l) s))))).
Proof.
  intros Herr Hl Hst Hok. cbn [after_json]. rewrite Herr, Hl, Hst.
  unfold seq at 1. unfold act at 1.
  unfold seq at 1.
  rewrite (displayResults_all l (set_this_leads (LeadsArray l) s) eq_refl Hok).
  reflexivity.
Qed.

Lemma after_json_fails (p : payload) (s : state) :
  ToBoolean (p_error p) = false -> renders p = false ->
  exists cards,
    after_json (JsonObject p) s
    = (Throw, set_resultsContent (LeadCards cards) (set_this_leads (p_leads p) s)).
Proof.
  intros Herr Hr. cbn [after_json]. rewrite Herr.
  unfold seq at 1. unfold act at 1. unfold seq at 1. unfold renders in Hr.
  destruct (p_leads p) as [l | z] eqn:Hl.
  - destruct (forallb (fun ld => negb (createLeadElement_raises ld)) l) eqn:Hok.
    + rewrite (displayResults_all l (set_this_leads (LeadsArray l) s) eq_refl Hok).
      destruct (p_stats p); [discriminate Hr |]. exists l. reflexivity.
    + rewrite (displayResults_array l (set_this_leads (LeadsArray l) s) eq_refl).
      destruct (forEach_lead_some_raise l []
                  (set_resultsContent (LeadCards []) (set_this_leads (LeadsArray l) s))
                  eq_refl Hok) as [cards Hcards].
      exists cards. now rewrite Hcards.
  - exists []. reflexivity.
Qed.

Ltac page_lookup :=
  unfold showLoading, showExportSection, showError, updateStats, act;
  cbn [snd page set_page set_resultsContent set_this_leads set_awaiting];
  repeat (rewrite lookup_insert_ne by discriminate);
  rewrite ?lookup_insert_eq; reflexivity.

Lemma step_renders (s : state) (n : nat) (p : payload) (l : list lead) (st : stats) :
  awaiting_json s = S n ->
  ToBoolean (p_error p) = false ->
  p_leads p = LeadsArray l -> p_stats p = Some st ->
  forallb (fun ld => negb (createLeadElement_raises ld)) l = true ->
  step s (JsonSettled (Some (JsonObject p)))
  = Some (showLoading false
            (showExportSection true
               (snd (updateStats (Some st)
                       (set_resultsContent (LeadCards l)
                          (set_this_leads (LeadsArray l)
                             (set_awaiting (awaiting_fetch s) n s))))))).
Proof.
  intros Hn Herr Hl Hst Hok. cbn [step]. rewrite Hn. unfold resume, try_catch_finally.
  rewrite (after_json_renders p l st _ Herr Hl Hst Hok). reflexivity.
Qed.

(** X9: when the body of the response carries no error and can be put on
    the page, the scrape ends with the leads of the response stored and
    shown, one card each in their order, the three stats of the response
    shown as they came (they are not counted from the leads), the export
    section visible, the loading indicator hidden and the button enabled
    again; nothing is sent, downloaded or alerted. *)
Theorem scrape_success_shows_response (s : state) (n : nat) (p : payload)
    (l : list lead) (st : stats) :
  awaiting_json s = S n ->
  ToBoolean (p_error p) = false ->
  p_leads p = LeadsArray l -> p_stats p = Some st ->
  forallb (fun ld => negb (createLeadElement_raises ld)) l = true ->
  exists s',
    step s (JsonSettled (Some (JsonObject p))) = Some s'
    /\ this_leads s' = LeadsArray l
    /\ resultsContent s' = LeadCards l
    /\ page s' !! "totalLeads.textContent" = Some (total st)
    /\ page s' !! "withPhone.textContent" = Some (with_phone st)
    /\ page s' !! "withWebsite.textContent" = Some (with_website st)
    /\ page s' !! "stats.style.display" = Some (JStr "grid")
    /\ page s' !! "exportSection.style.display" = Some (JStr "block")
    /\ idle_look s'
    /\ scrapeBtn_disabled s' = false
    /\ awaiting_json s' = n /\ awaiting_fetch s' = awaiting_fetch s
    /\ fetched s' = fetched s /\ downloaded s' = downloaded s /\ alerts s' = alerts s.
Proof.
  intros Hn Herr Hl Hst Hok. eexists. split.
  - exact (step_renders s n p l st Hn Herr Hl Hst Hok).
  - repeat split; try page_lookup; try reflexivity.
    apply scrapeBtn_showLoading.
Qed.

(** X10: when the body carries no error but cannot be put on the page (its
    leads are not an array, a card raises, or its stats are missing), the
    scrape ends with the message of the catch clause in the panel, and
    [this.leads] is what the response carried all the same: the assignment
    comes before the rendering.  The export section and the stats block are
    left as they were, the loading indicator is hidden and the button is
    enabled again. *)
Theorem render_failure_keeps_new_leads (s : state) (n : nat) (p : payload) :
  awaiting_json s = S n ->
  ToBoolean (p_error p) = false ->
  renders p = false ->
  exists s',
    step s (JsonSettled (Some (JsonObject p))) = Some s'
    /\ this_leads s' = p_leads p
    /\ resultsContent s' = ErrorPanel scraping_failed
    /\ page s' !! "exportSection.style.display" = page s !! "exportSection.style.display"
    /\ page s' !! "stats.style.display" = page s !! "stats.style.display"
    /\ idle_look s'
    /\ scrapeBtn_disabled s' = false
    /\ awaiting_json s' = n
    /\ fetched s' = fetched s /\ downloaded s' = downloaded s /\ alerts s' = alerts s.
Proof.
  intros Hn Herr Hr.
  exists (showLoading false
            (showError (JStr scraping_failed)
               (set_this_leads (p_leads p) (set_awaiting (awaiting_fetch s) n s)))).
  split.
  - cbn [step]. rewrite Hn. unfold resume, try_catch_finally.
    destruct (after_json_fails p (set_awaiting (awaiting_fetch s) n s) Herr Hr)
      as [cards ->]. reflexivity.
  - repeat split; try page_lookup; try reflexivity.
    apply scrapeBtn_showLoading.
Qed.

(** ** Over a whole session *)

Lemma keeps_after_json {A : Type} (f : state -> A) :
  (forall g s, f (set_page g s) = f s) ->
  (forall p s, f (set_resultsContent p s) = f s) ->
  (forall l s, f (set_this_leads l s) = f s) ->
  forall d, keeps f (after_json d).
Proof.
  intros Hpage Hpanel Hleads [|p]; [apply keeps_throw |].
  cbn [after_json]. destruct (ToBoolean (p_error p)).
  - apply keeps_seq; [apply keeps_act; intros s; apply Hpanel | apply keeps_ret].
  - apply keeps_seq; [apply keeps_act; intros s; apply Hleads |].
    apply keeps_seq; [now apply keeps_displayResults |].
    apply keeps_seq; [| apply keeps_act; intros s; apply Hpage].
    destruct (p_stats p) as [st|];
      [apply keeps_act; intros s; apply Hpage | apply keeps_throw].
Qed.

Lemma keeps_resume {A : Type} (f : state -> A) (body : stmt) (s : state) :
  (forall g s, f (set_page g s) = f s) ->
  (forall p s, f (set_resultsContent p s) = f s) ->
  f (resume body s) = f (snd (body s)).
Proof.
  intros Hpage Hpanel. unfold resume, try_catch_finally.
  destruct (body s) as [c s1]. cbn [snd].
  assert (H2 : f (snd (match c with Throw => on_error s1 | _ => (c, s1) end)) = f s1).
  { destruct c; cbn [snd]; try reflexivity. apply Hpanel. }
  destruct (match c with Throw => on_error s1 | _ => (c, s1) end) as [c' s2].
  cbn [snd] in H2. cbn [act]. rewrite <- H2. apply Hpage.
Qed.

Lemma step_requests (s s' : state) (e : event) :
  step s e = Some s' -> fetched s' = fetched s ++ requests_of e.
Proof.
  intros Hstep. destruct e as [f | | ok | d]; cbn [step requests_of] in *.
  - destruct (scrapeBtn_disabled s); [discriminate |]. injection Hstep as <-.
    unfold startScraping. destruct (ToBoolean (JStr (query f))); cbn [negb].
    + reflexivity.
    + now rewrite app_nil_r.
  - injection Hstep as <-. rewrite app_nil_r. unfold exportToCSV.
    destruct (this_leads s) as [[|ld l] | []]; reflexivity.
  - rewrite app_nil_r. destruct (awaiting_fetch s); [discriminate |].
    destruct ok; injection Hstep as <-; [reflexivity |].
    now rewrite fetched_resume by apply keeps_throw.
  - rewrite app_nil_r. destruct (awaiting_json s); [discriminate |].
    injection Hstep as <-. rewrite fetched_resume; [reflexivity |].
    destruct d; [apply keeps_traffic_after_json | apply keeps_throw].
Qed.

(** X11: over any sequence of tasks the requests sent are exactly one per
    submission of a query that is not empty, in the order of the
    submissions, each a POST to /scrape with a JSON body that carries the
    three inputs as they were typed; no other task sends anything, and no
    request carries an empty query. *)
Theorem requests_are_the_valid_submissions (evs : list event) :
  forall s s',
    run s evs = Some s' ->
    fetched s' = fetched s ++ flat_map requests_of evs
    /\ Forall (fun r => url r = "/scrape" /\ method r = "POST"
                        /\ content_type r = "application/json"
                        /\ query (body r) <> ""
                        /\ Submit (body r) ∈ evs)
              (flat_map requests_of evs).
Proof.
  induction evs as [|e evs IH]; intros s s' Hrun; cbn [run flat_map] in *.
  - injection Hrun as <-. split; [now rewrite app_nil_r | constructor].
  - destruct (step s e) as [s1|] eqn:Hstep; [| discriminate].
    destruct (IH s1 s' Hrun) as [Hf Hall]. split.
    + rewrite Hf, (step_requests s s1 e Hstep). now rewrite <- (assoc_L (++)).
    + apply Forall_app. split.
      * destruct e as [f | | ok | d]; cbn [requests_of]; try constructor.
        destruct (ToBoolean (JStr (query f))) eqn:Hq; constructor; [| constructor].
        cbn. repeat split. { intros Hempty. rewrite Hempty in Hq. discriminate Hq. }
        apply list_elem_of_here.
      * eapply Forall_impl; [exact Hall |]. cbn. intros r (H1 & H2 & H3 & H4 & H5).
        repeat split; try assumption. now apply list_elem_of_further.
Qed.

Lemma step_leads (s s' : state) (e : event) :
  step s e = Some s' -> this_leads s' = default (this_leads s) (delivered e).
Proof.
  intros Hstep.
  destruct (delivers_leads e) eqn:He.
  - destruct e as [f | | ok | [[|p] |]]; try discriminate He.
    cbn in He. apply negb_true_iff in He.
    cbn [delivered]. rewrite He. cbn [default].
    cbn [step] in Hstep. destruct (awaiting_json s) as [|n]; [discriminate |].
    injection Hstep as <-.
    rewrite (keeps_resume this_leads); [| reflexivity | reflexivity].
    cbn [after_json]. rewrite He. unfold seq at 1. unfold act at 1.
    match goal with |- this_leads (snd (?rest ?t)) = _ =>
      assert (Hk : keeps this_leads rest)
    end.
    { apply keeps_seq; [now apply keeps_displayResults |].
      apply keeps_seq; [| now apply keeps_act].
      destruct (p_stats p); [now apply keeps_act | apply keeps_throw]. }
    now rewrite Hk.
  - assert (Hd : delivered e = None).
    { destruct e as [f | | ok | [[|p] |]]; try reflexivity.
      cbn in He. apply negb_false_iff in He. cbn [delivered]. now rewrite He. }
    rewrite Hd. cbn [default].
    pose proof (step_keeps_held s s' e Hstep He) as Hh.
    unfold held in Hh. congruence.
Qed.

(** X12: at any moment [this.leads] is what the last response without an
    error carried, or what it was at the start when there was none; the
    script never edits the leads it holds. *)
Theorem leads_are_last_delivered (evs : list event) :
  forall s s',
    run s evs = Some s' ->
    this_leads s' = default (this_leads s) (last_delivered evs).
Proof.
  induction evs as [|e evs IH]; intros s s' Hrun; cbn [run last_delivered] in *.
  - now injection Hrun as <-.
  - destruct (step s e) as [s1|] eqn:Hstep; [| discriminate].
    rewrite (IH s1 s' Hrun). rewrite (step_leads s s1 e Hstep).
    now destruct (last_delivered evs).
Qed.

Lemma idle_after_resume (body : stmt) (s : state) : idle_look (resume body s).
Proof.
  unfold resume, try_catch_finally.
  destruct (body s) as [c s1].
  destruct (match c with Throw => on_error s1 | _ => (c, s1) end) as [c' s2].
  split; page_lookup.
Qed.

Lemma step_busy_look (s s' : state) (e : event) :
  one_at_a_time s -> (in_flight s = 1 -> busy_look s) ->
  step s e = Some s' -> in_flight s' = 1 -> busy_look s'.
Proof.
  intros [Hle Hdis] Hbusy Hstep H1.
  destruct e as [f | | ok | d]; cbn [step] in Hstep.
  - destruct (scrapeBtn_disabled s); [discriminate |]. injection Hstep as <-.
    unfold startScraping in *. destruct (negb (ToBoolean (JStr (query f)))).
    + apply Hbusy. exact H1.
    + split; unfold call_fetch, clearResults, showLoading;
        cbn [page set_page set_resultsContent];
        repeat (rewrite lookup_insert_ne by discriminate);
        rewrite ?lookup_insert_eq; reflexivity.
  - injection Hstep as <-. unfold exportToCSV in *.
    destruct (this_leads s) as [[|ld l] | []]; apply Hbusy; exact H1.
  - destruct (awaiting_fetch s) as [|n] eqn:Hn; [discriminate |].
    destruct ok; injection Hstep as <-.
    + unfold in_flight in *. rewrite Hn in *. cbn in H1.
      unfold busy_look. cbn [page set_awaiting]. apply Hbusy. lia.
    + exfalso. rewrite (in_flight_resume throw _ (keeps_throw traffic)) in H1.
      unfold in_flight in *. rewrite Hn in *. cbn in H1. lia.
  - destruct (awaiting_json s) as [|n] eqn:Hn; [discriminate |].
    injection Hstep as <-. exfalso. rewrite in_flight_resume in H1.
    + unfold in_flight in *. rewrite Hn in *. cbn in H1. lia.
    + destruct d; [apply keeps_traffic_after_json | apply keeps_throw].
Qed.

(** X13: in every state the page can reach, while a scrape is in flight the
    loading indicator is shown and the button reads Scraping...; and
    whichever way the scrape ends, the task that ends it hides the indicator
    and puts the label Start Scraping back. *)
Theorem loading_follows_scrape (p : panel) (dom : gmap string jsval)
    (evs : list event) (s : state) :
  run (boot p dom) evs = Some s ->
  (in_flight s = 1 -> busy_look s)
  /\ (forall e s', step s e = Some s' -> in_flight s' < in_flight s -> idle_look s').
Proof.
  intros Hrun. split.
  - assert (Hinv : one_at_a_time s /\ (in_flight s = 1 -> busy_look s)).
    { assert (H0 : one_at_a_time (boot p dom)
                   /\ (in_flight (boot p dom) = 1 -> busy_look (boot p dom))).
      { split; [split; [cbn; lia | cbn; discriminate] | cbn; discriminate]. }
      revert Hrun H0. generalize (boot p dom) as s0.
      induction evs as [|e evs IH]; intros s0 Hrun [Hone Hb]; cbn [run] in Hrun.
      - injection Hrun as <-. now split.
      - destruct (step s0 e) as [s1|] eqn:Hstep; [| discriminate].
        apply (IH s1 Hrun). split.
        + exact (step_one_at_a_time s0 s1 e Hone Hstep).
        + exact (step_busy_look s0 s1 e Hone Hb Hstep). }
    exact (proj2 Hinv).
  - intros e s' Hstep Hlt. destruct e as [f | | ok | d]; cbn [step] in Hstep.
    + destruct (scrapeBtn_disabled s); [discriminate |]. injection Hstep as <-.
      exfalso. unfold startScraping in Hlt.
      destruct (negb (ToBoolean (JStr (query f)))); unfold in_flight in Hlt;
        cbn in Hlt; lia.
    + injection Hstep as <-. exfalso. unfold exportToCSV in Hlt.
      destruct (this_leads s) as [[|ld l] | []]; cbn [snd] in Hlt;
        unfold in_flight in Hlt; cbn in Hlt; lia.
    + destruct (awaiting_fetch s) as [|n] eqn:Hn; [discriminate |].
      destruct ok; injection Hstep as <-.
      * exfalso. unfold in_flight in Hlt. cbn in Hlt. rewrite Hn in Hlt. lia.
      * apply idle_after_resume.
    + destruct (awaiting_json s) as [|n] eqn:Hn; [discriminate |].
      injection Hstep as <-. apply idle_after_resume.
Qed.

Lemma step_downloads (s s' : state) (e : event) :
  step s e = Some s' ->
  exists docs,
    downloaded s' = downloaded s ++ docs
    /\ Forall (fun t => exists ld l, this_leads s = LeadsArray (ld :: l)
                                     /\ t = header_line +:+ rows_text (ld :: l)) docs
    /\ length docs <= (if is_export e then 1 else 0).
Proof.
  intros Hstep. destruct e as [f | | ok | d]; cbn [step is_export] in *.
  - exists []. rewrite app_nil_r. split; [| split; [constructor | cbn; lia]].
    destruct (scrapeBtn_disabled s); [discriminate |]. injection Hstep as <-.
    unfold startScraping. now destruct (negb (ToBoolean (JStr (query f)))).
  - injection Hstep as <-. unfold exportToCSV.
    destruct (this_leads s) as [[|ld l] | []] eqn:Hl; cbn [snd downloaded].
    + exists []. rewrite app_nil_r. repeat split; [constructor | cbn; lia].
    + exists [csvContent (ld :: l)]. split; [reflexivity |].
      split; [| cbn; lia]. constructor; [| constructor].
      exists ld, l. split; [reflexivity | apply csvContent_rows].
    + exists []. rewrite app_nil_r. repeat split; [constructor | cbn; lia].
    + exists []. rewrite app_nil_r. repeat split; [constructor | cbn; lia].
  - exists []. rewrite app_nil_r. split; [| split; [constructor | cbn; lia]].
    destruct (awaiting_fetch s); [discriminate |].
    destruct ok; injection Hstep as <-; [reflexivity |].
    now rewrite (keeps_resume downloaded).
  - exists []. rewrite app_nil_r. split; [| split; [constructor | cbn; lia]].
    destruct (awaiting_json s); [discriminate |]. injection Hstep as <-.
    rewrite (keeps_resume downloaded); [| reflexivity | reflexivity].
    destruct d as [v |]; [| reflexivity].
    now rewrite (keeps_after_json downloaded).
Qed.

(** X14: every document downloaded in a session is the header row followed
    by the rows of a collection with at least one lead; a document with no
    rows, or without the header, is never downloaded; the documents are
    added one after the other, none removed, at most one for each click on
    export. *)
Theorem downloads_have_rows (evs : list event) :
  forall s s',
    run s evs = Some s' ->
    exists docs,
      downloaded s' = downloaded s ++ docs
      /\ Forall (fun t => exists ld l, t = header_line +:+ rows_text (ld :: l)) docs
      /\ length docs <= length (List.filter is_export evs).
Proof.
  induction evs as [|e evs IH]; intros s s' Hrun; cbn [run] in Hrun.
  - injection Hrun as <-. exists []. rewrite app_nil_r.
    repeat split; [constructor | cbn; lia].
  - destruct (step s e) as [s1|] eqn:Hstep; [| discriminate].
    destruct (step_downloads s s1 e Hstep) as (d1 & H1 & P1 & N1).
    destruct (IH s1 s' Hrun) as (d2 & H2 & P2 & L2).
    exists (d1 ++ d2). split; [rewrite H2, H1; now rewrite <- (assoc_L (++)) |].
    split.
    + apply Forall_app. split; [| exact P2].
      eapply Forall_impl; [exact P1 |]. cbn. intros t (ld & l & _ & Ht). eauto.
    + rewrite length_app. cbn [List.filter].
      destruct (is_export e); cbn [length]; lia.
Qed.

(** X15: a scrape and an export put together.  From a page whose button is
    enabled, submitting a query that is not empty, the response arriving
    with leads that can be put on the page, and a click on export: one
    request is sent with the inputs, the leads of the response are shown,
    and the document downloaded is the CSV text of exactly these leads. *)
Theorem scrape_then_export (s : state) (f : form) (p : payload)
    (l : list lead) (st : stats) :
  scrapeBtn_disabled s = false ->
  query f <> "" ->
  ToBoolean (p_error p) = false ->
  p_leads p = LeadsArray l -> l <> [] -> p_stats p = Some st ->
  forallb (fun ld => negb (createLeadElement_raises ld)) l = true ->
  exists s',
    run s [Submit f; FetchSettled true; JsonSettled (Some (JsonObject p)); ExportClick]
    = Some s'
    /\ fetched s' = fetched s ++ [mkRequest "/scrape" "POST" "application/json" f]
    /\ downloaded s' = downloaded s ++ [csvContent l]
    /\ this_leads s' = LeadsArray l
    /\ resultsContent s' = LeadCards l
    /\ in_flight s' = in_flight s
    /\ scrapeBtn_disabled s' = false.
Proof.
  intros Hbtn Hq Herr Hl Hne Hst Hok.
  pose (s1 := startScraping f s).
  pose (s2 := set_awaiting (awaiting_fetch s) (S (awaiting_json s)) s1).
  assert (H1 : step s (Submit f) = Some s1) by (cbn [step]; now rewrite Hbtn).
  assert (H2 : step s1 (FetchSettled true) = Some s2).
  { unfold s2, s1. rewrite (startScraping_valid f s Hq). reflexivity. }
  pose proof (step_renders s2 (awaiting_json s) p l st eq_refl Herr Hl Hst Hok) as H3.
  eexists.
  split; [cbn [run]; rewrite H1, H2, H3; reflexivity |].
  unfold exportToCSV.
  cbn [this_leads showLoading showExportSection updateStats act snd set_page
       set_resultsContent set_this_leads].
  destruct l as [|ld l]; [congruence |]. cbn [snd].
  unfold s2, s1. rewrite (startScraping_valid f s Hq).
  repeat split. apply scrapeBtn_showLoading.
Qed.

(** X16: a scrape that starts clears the panel and hides the stats, but it
    leaves [this.leads] and the export section alone: a click on export
    while the scrape is in flight downloads the collection of the scrape
    before, although the page no longer shows it. *)
Theorem export_during_scrape (s : state) (f : form) (ld : lead) (l : list lead) :
  scrapeBtn_disabled s = false ->
  query f <> "" ->
  this_leads s = LeadsArray (ld :: l) ->
  exists s',
    run s [Submit f; ExportClick] = Some s'
    /\ in_flight s' = S (in_flight s)
    /\ resultsContent s' = Placeholder
    /\ page s' !! "stats.style.display" = Some (JStr "none")
    /\ page s' !! "exportSection.style.display" = page s !! "exportSection.style.display"
    /\ downloaded s' = downloaded s ++ [csvContent (ld :: l)].
Proof.
  intros Hbtn Hq Hl. exists (snd (exportToCSV (startScraping f s))). split.
  - cbn [run step]. rewrite Hbtn. reflexivity.
  - rewrite (startScraping_valid f s Hq).
    unfold exportToCSV, call_fetch, clearResults, showLoading.
    cbn [this_leads set_page set_resultsContent]. rewrite Hl. cbn [snd].
    repeat split; cbn [page set_page set_resultsContent];
      repeat (rewrite lookup_insert_ne by discriminate);
      rewrite ?lookup_insert_eq; reflexivity.
Qed.

End Properties.

(** * The statements at work *)

Example csvContent_joes_cafe :
  csvContent (js := sample_engine) [joes_cafe] = header_line +:+ LF +:+ cafe_row.
Proof. vm_compute. reflexivity. Qed.

Example cafe_shown_cards :
  resultsContent cafe_shown = LeadCards [joes_cafe]
  /\ this_leads cafe_shown = LeadsArray [joes_cafe]
  /\ in_flight cafe_shown = 0
  /\ scrapeBtn_disabled cafe_shown = false.
Proof. repeat split; vm_compute; reflexivity. Qed.

(** The reader cannot read the text the script writes for a name with a
    double quote in it. *)
Example round_trip_breaks_on_quote :
  parse_csv (csvContent (js := sample_engine) [nickname_cafe]) = None.
Proof. vm_compute. reflexivity. Qed.

(** C1 fails on the script: the Name field of Joe "JJ" Cafe, Inc is the
    name between two quotes with its own quotes single, not doubled. *)
Lemma embedded_quote_not_doubled :
  row_cells (js := sample_engine) nickname_cafe !! 0 = Some (DQ +:+ nickname +:+ DQ)
  /\ row_cells (js := sample_engine) nickname_cafe !! 0
     <> Some (DQ +:+ rfc4180_escape nickname +:+ DQ).
Proof.
  split; [vm_compute; reflexivity |].
  vm_compute. intros H. discriminate H.
Qed.

Lemma text_fields_quoted_verbatim_witness :
  exists t,
    lead_texts (js := sample_engine) joes_cafe !! 0 = Some t
    /\ row_cells (js := sample_engine) joes_cafe !! 0 = Some (DQ +:+ t +:+ DQ)
    /\ (quote_free t = true ->
        row_cells (js := sample_engine) joes_cafe !! 0
        = Some (DQ +:+ rfc4180_escape t +:+ DQ)).
Proof.
  apply (text_fields_quoted_verbatim (js := sample_engine) joes_cafe 0).
  apply list_elem_of_here.
Defined.

(** C2 fails on the script where a value is there and falsy: the lead with a
    rating and a review count of 0 has no comma, double quote or line feed
    in its data, yet the two zeros read back as empty fields. *)
Lemma zero_rating_does_not_round_trip :
  forallb plain (lead_data (js := sample_engine) unrated_cafe) = true
  /\ lead_data (js := sample_engine) unrated_cafe
     = ["Corner Cafe"; ""; ""; ""; "0"; "0"; ""]
  /\ parse_csv (csvContent (js := sample_engine) [unrated_cafe])
     = Some [header_names; ["Corner Cafe"; ""; ""; ""; ""; ""; ""]]
  /\ parse_csv (csvContent (js := sample_engine) [unrated_cafe])
     <> Some (header_names :: map (lead_data (js := sample_engine)) [unrated_cafe]).
Proof.
  split; [vm_compute; reflexivity |].
  split; [vm_compute; reflexivity |].
  split; [vm_compute; reflexivity |].
  vm_compute. intros H. discriminate H.
Qed.

Lemma csv_round_trip_witness :
  parse_csv (csvContent (js := sample_engine) [joes_cafe; tea_room])
  = Some (header_names :: map (lead_data (js := sample_engine)) [joes_cafe; tea_room])
  /\ parse_csv (csvContent_rfc4180 (js := sample_engine) [joes_cafe; nickname_cafe])
     = Some (header_names :: map (lead_data (js := sample_engine)) [joes_cafe; nickname_cafe]).
Proof.
  split.
  - apply (proj1 (csv_round_trip (js := sample_engine) [joes_cafe; tea_room])).
    + vm_compute. reflexivity.
    + vm_compute. reflexivity.
  - apply (proj2 (csv_round_trip (js := sample_engine) [joes_cafe; nickname_cafe])).
    + vm_compute. reflexivity.
    + vm_compute. reflexivity.
Defined.

Lemma csv_header_then_rows_witness :
  fst (exportToCSV (js := sample_engine) cafe_shown) = Normal
  /\ downloaded (snd (exportToCSV (js := sample_engine) cafe_shown))
     = downloaded cafe_shown ++ [csvContent (js := sample_engine) [joes_cafe]].
Proof.
  apply (csv_header_then_rows (js := sample_engine) [joes_cafe]).
  - vm_compute. reflexivity.
  - discriminate.
Defined.

Lemma missing_fields_keep_columns_witness :
  row_cells (js := sample_engine) nickname_cafe !! 1 = Some (DQ +:+ DQ)
  /\ row_cells (js := sample_engine) nickname_cafe !! 4 = Some ""
  /\ row_cells (js := sample_engine) joes_cafe !! 4 = Some "4.5".
Proof.
  pose proof (missing_fields_keep_columns (js := sample_engine) nickname_cafe)
    as (_ & Haddress & _ & _ & _ & Hrating & _).
  pose proof (missing_fields_keep_columns (js := sample_engine) joes_cafe)
    as (_ & _ & _ & _ & _ & _ & _ & Hnumber & _).
  split; [apply Haddress; right; vm_compute; reflexivity |].
  split; [apply Hrating; left; vm_compute; reflexivity |].
  apply (Hnumber four_and_a_half); vm_compute; reflexivity.
Defined.

Lemma zero_written_as_missing_witness :
  row_cells (js := sample_engine) unrated_cafe !! 4 = Some ""
  /\ csv_row (js := sample_engine) unrated_cafe
     = csv_row (js := sample_engine) (delete "rating" unrated_cafe).
Proof.
  apply (proj1 (zero_written_as_missing (js := sample_engine) unrated_cafe false)).
  vm_compute. reflexivity.
Defined.

(** C6 fails on the script: exporting from the fresh page, whose collection
    is empty, downloads nothing, not a header row. *)
Lemma empty_export_downloads_nothing :
  this_leads fresh_page = LeadsArray []
  /\ downloaded (snd (exportToCSV (js := sample_engine) fresh_page)) = []
  /\ downloaded (snd (exportToCSV (js := sample_engine) fresh_page)) <> [header_line]
  /\ alerts (snd (exportToCSV (js := sample_engine) fresh_page)) = ["No leads to export"].
Proof. repeat split. discriminate. Qed.

Lemma export_of_nothing_alerts_witness :
  fst (exportToCSV (js := sample_engine) fresh_page) = Return
  /\ downloaded (snd (exportToCSV (js := sample_engine) fresh_page)) = downloaded fresh_page
  /\ alerts (snd (exportToCSV (js := sample_engine) fresh_page))
     = alerts fresh_page ++ ["No leads to export"]
  /\ csvContent (js := sample_engine) [] = header_line.
Proof.
  apply (export_of_nothing_alerts (js := sample_engine) fresh_page). reflexivity.
Defined.

(** C7 fails on the script where it says the collection is still displayed:
    after a scrape that showed Joe's Cafe, a scrape answered with an error
    leaves the error message in the results panel and the stats hidden. *)
Lemma failed_scrape_replaces_results :
  resultsContent cafe_shown = LeadCards [joes_cafe]
  /\ run (js := sample_engine) cafe_shown (one_scrape (error_body "Rate limited"))
     = Some cafe_failed
  /\ resultsContent cafe_failed = ErrorPanel "Rate limited"
  /\ resultsContent cafe_failed <> LeadCards [joes_cafe]
  /\ page cafe_failed !! "stats.style.display" = Some (JStr "none").
Proof.
  split; [vm_compute; reflexivity |].
  split; [vm_compute; reflexivity |].
  split; [vm_compute; reflexivity |].
  split; [vm_compute; discriminate | vm_compute; reflexivity].
Qed.

Lemma failed_scrape_keeps_leads_witness :
  (this_leads cafe_failed = this_leads cafe_shown
   /\ fst (exportToCSV (js := sample_engine) cafe_failed)
      = fst (exportToCSV (js := sample_engine) cafe_shown))
  /\ (resultsContent cafe_rejected = ErrorPanel "Please enter a search query"
      /\ page cafe_rejected !! "stats.style.display"
         = page cafe_shown !! "stats.style.display")
  /\ (resultsContent
        (startScraping (js := sample_engine) cafe_query cafe_shown) = Placeholder).
Proof.
  destruct (failed_scrape_keeps_leads (js := sample_engine)) as (Hkeep & Hfail & Hstart).
  split; [| split].
  - assert (Hrun : run (js := sample_engine) cafe_shown
                     (one_scrape (error_body "Rate limited")) = Some cafe_failed)
      by (vm_compute; reflexivity).
    assert (Hev : forallb (fun e => negb (delivers_leads e))
                    (one_scrape (error_body "Rate limited")) = true)
      by (vm_compute; reflexivity).
    destruct (Hkeep cafe_shown cafe_failed (one_scrape (error_body "Rate limited"))
                Hrun Hev) as (Hleads & _ & Hexport & _).
    split; [exact Hleads | exact Hexport].
  - assert (Hstep : step (js := sample_engine) cafe_shown
                      (Submit (mkForm "" "Springfield" "10")) = Some cafe_rejected)
      by (vm_compute; reflexivity).
    destruct (Hfail cafe_shown cafe_rejected (Submit (mkForm "" "Springfield" "10"))
                "Please enter a search query" Hstep eq_refl)
      as (_ & _ & Hpanel & Hstats).
    split; [exact Hpanel | exact Hstats].
  - assert (Hstep : step (js := sample_engine) cafe_shown (Submit cafe_query)
                    = Some (startScraping (js := sample_engine) cafe_query cafe_shown))
      by (vm_compute; reflexivity).
    destruct (Hstart cafe_shown _ cafe_query Hstep ltac:(discriminate)) as (_ & Hpanel & _).
    exact Hpanel.
Defined.

Lemma one_scrape_in_flight_witness :
  in_flight cafe_pending <= 1
  /\ (in_flight cafe_pending = 1 ->
      scrapeBtn_disabled cafe_pending = true
      /\ forall f, step (js := sample_engine) cafe_pending (Submit f) = None).
Proof.
  assert (Hrun : run (js := sample_engine) (boot AsLoaded ∅)
                   [Submit cafe_query; FetchSettled true] = Some cafe_pending)
    by (vm_compute; reflexivity).
  destruct (one_scrape_in_flight (js := sample_engine) AsLoaded ∅
              [Submit cafe_query; FetchSettled true] cafe_pending Hrun)
    as (Hle & Hbusy & _).
  split; [exact Hle | exact Hbusy].
Defined.

Lemma empty_query_never_fetches_witness :
  fetched nothing_asked = fetched fresh_page
  /\ resultsContent nothing_asked = ErrorPanel "Please enter a search query".
Proof.
  assert (Hrun : run (js := sample_engine) fresh_page
                   [Submit (mkForm "" "Springfield" "10"); ExportClick;
                    Submit (mkForm "" "" "")] = Some nothing_asked)
    by (vm_compute; reflexivity).
  split; [| vm_compute; reflexivity].
  apply (proj2 (empty_query_never_fetches (js := sample_engine)) _ _ _ Hrun).
  vm_compute. reflexivity.
Defined.

Lemma only_empty_query_rejected_witness :
  fetched (startScraping (js := sample_engine) blank_query fresh_page)
  = fetched fresh_page ++ [mkRequest "/scrape" "POST" "application/json" blank_query]
  /\ awaiting_fetch (startScraping (js := sample_engine) blank_query fresh_page)
     = S (awaiting_fetch fresh_page)
  /\ resultsContent (startScraping (js := sample_engine) blank_query fresh_page) = Placeholder.
Proof.
  apply (proj2 (only_empty_query_rejected (js := sample_engine) blank_query fresh_page)).
  - discriminate.
  - vm_compute. reflexivity.
Defined.

(** The printer of the samples on the Numbers they use. *)
Example sample_numbers :
  exact_decimal (S754_zero false) = "0"
  /\ exact_decimal four_and_a_half = "4.5"
  /\ exact_decimal one_hundred_twenty = "120"
  /\ exact_decimal minus_one = "-1".
Proof. repeat split; vm_compute; reflexivity. Qed.

Lemma other_properties_not_exported_witness :
  csv_row (js := sample_engine) (<["email" := JStr "joe@cafe.example"]> joes_cafe)
  = csv_row (js := sample_engine) joes_cafe
  /\ csv_row (js := sample_engine) (delete "email" joes_cafe)
     = csv_row (js := sample_engine) joes_cafe.
Proof.
  apply (other_properties_not_exported (js := sample_engine) joes_cafe "email").
  unfold exported_keys. intros H.
  repeat (apply elem_of_cons in H as [H | H]; [discriminate H |]).
  now apply elem_of_nil in H.
Defined.

Lemma falsy_written_as_missing_witness :
  csv_row (js := sample_engine) unrated_cafe
  = csv_row (js := sample_engine) (delete "rating" unrated_cafe).
Proof.
  apply (falsy_written_as_missing (js := sample_engine) unrated_cafe "rating").
  - unfold defaulted_keys. do 3 apply list_elem_of_further. apply list_elem_of_here.
  - vm_compute. reflexivity.
Defined.

Lemma csv_round_trip_without_quotes_witness :
  parse_csv (csvContent (js := sample_engine) [two_line_cafe; joes_cafe])
  = Some (header_names :: map (lead_texts (js := sample_engine)) [two_line_cafe; joes_cafe]).
Proof.
  apply (csv_round_trip_without_quotes (js := sample_engine) [two_line_cafe; joes_cafe]).
  vm_compute. reflexivity.
Defined.

Lemma card_of_falsy_fields_witness :
  card_innerHTML (js := sample_engine) (repeat_string "⭐" 4) unrated_reviews
  = card_innerHTML (js := sample_engine) "" (delete "reviews_count" unrated_reviews)
  /\ card_innerHTML (js := sample_engine) "" unrated_reviews
     = card_innerHTML (js := sample_engine) "" (<["address" := JStr "N/A"]> unrated_reviews).
Proof.
  split.
  - apply (proj1 (card_of_falsy_fields (js := sample_engine)
                    (repeat_string "⭐" 4) "" unrated_reviews)).
    vm_compute. reflexivity.
  - apply (proj1 (proj2 (card_of_falsy_fields (js := sample_engine) "" "" unrated_reviews))).
    vm_compute. reflexivity.
Defined.

Lemma displayResults_shows_all_witness :
  displayResults (js := sample_engine) cafe_shown
  = (Normal, set_resultsContent (LeadCards [joes_cafe]) cafe_shown)
  /\ displayResults (js := sample_engine) (snd (displayResults (js := sample_engine) cafe_shown))
     = displayResults (js := sample_engine) cafe_shown.
Proof.
  apply (displayResults_shows_all (js := sample_engine) [joes_cafe] cafe_shown).
  - vm_compute. reflexivity.
  - vm_compute. reflexivity.
Defined.

Lemma displayResults_stops_at_raise_witness :
  displayResults (js := rating_engine) mixed_page
  = (Throw, set_resultsContent (LeadCards [joes_cafe]) mixed_page).
Proof.
  apply (proj1 (displayResults_stops_at_raise (js := rating_engine) mixed_page)
           [joes_cafe] sour_cafe [unrated_cafe]).
  - reflexivity.
  - vm_compute. reflexivity.
  - vm_compute. reflexivity.
Defined.

Lemma scrape_success_shows_response_witness :
  exists s',
    step (js := sample_engine) cafe_pending (JsonSettled (Some (JsonObject cafe_payload)))
    = Some s'
    /\ resultsContent s' = LeadCards [joes_cafe; unrated_cafe]
    /\ page s' !! "totalLeads.textContent" = Some (JStr "2").
Proof.
  destruct (scrape_success_shows_response (js := sample_engine) cafe_pending 0
              cafe_payload [joes_cafe; unrated_cafe]
              (mkStats (JStr "2") (JStr "1") (JStr "0")))
    as (s' & Hstep & _ & Hpanel & Htotal & _).
  - vm_compute. reflexivity.
  - reflexivity.
  - reflexivity.
  - reflexivity.
  - vm_compute. reflexivity.
  - exists s'. split; [exact Hstep |]. split; [exact Hpanel | exact Htotal].
Defined.

Lemma render_failure_keeps_new_leads_witness :
  (exists s',
     step (js := rating_engine) cafe_pending (JsonSettled (Some (JsonObject broken_payload)))
     = Some s'
     /\ this_leads s' = LeadsArray [joes_cafe; sour_cafe; unrated_cafe]
     /\ resultsContent s' = ErrorPanel scraping_failed)
  /\ (exists s',
        step (js := sample_engine) cafe_pending
          (JsonSettled (Some (JsonObject statless_payload))) = Some s'
        /\ this_leads s' = LeadsArray [joes_cafe; unrated_cafe]
        /\ resultsContent s' = ErrorPanel scraping_failed).
Proof.
  split.
  - destruct (render_failure_keeps_new_leads (js := rating_engine) cafe_pending 0
                broken_payload)
      as (s' & Hstep & Hleads & Hpanel & _).
    + vm_compute. reflexivity.
    + reflexivity.
    + vm_compute. reflexivity.
    + exists s'. split; [exact Hstep |]. split; [exact Hleads | exact Hpanel].
  - destruct (render_failure_keeps_new_leads (js := sample_engine) cafe_pending 0
                statless_payload)
      as (s' & Hstep & Hleads & Hpanel & _).
    + vm_compute. reflexivity.
    + reflexivity.
    + reflexivity.
    + exists s'. split; [exact Hstep |]. split; [exact Hleads | exact Hpanel].
Defined.

Lemma requests_are_the_valid_submissions_witness :
  fetched cafe_session_end = fetched fresh_page ++ flat_map requests_of cafe_session.
Proof.
  apply (requests_are_the_valid_submissions (js := sample_engine) cafe_session
           fresh_page cafe_session_end).
  vm_compute. reflexivity.
Defined.

Lemma leads_are_last_delivered_witness :
  this_leads cafe_session_end
  = default (this_leads fresh_page) (last_delivered cafe_session).
Proof.
  apply (leads_are_last_delivered (js := sample_engine) cafe_session
           fresh_page cafe_session_end).
  vm_compute. reflexivity.
Defined.

Lemma loading_follows_scrape_witness : busy_look cafe_pending.
Proof.
  assert (Hrun : run (js := sample_engine) (boot AsLoaded ∅)
                   [Submit cafe_query; FetchSettled true] = Some cafe_pending)
    by (vm_compute; reflexivity).
  apply (proj1 (loading_follows_scrape (js := sample_engine) AsLoaded ∅
                  [Submit cafe_query; FetchSettled true] cafe_pending Hrun)).
  vm_compute. reflexivity.
Defined.

Lemma downloads_have_rows_witness :
  exists docs,
    downloaded cafe_session_end = downloaded fresh_page ++ docs
    /\ Forall (fun t => exists ld l, t = header_line +:+ rows_text (js := sample_engine) (ld :: l))
              docs
    /\ length docs <= length (List.filter is_export cafe_session).
Proof.
  apply (downloads_have_rows (js := sample_engine) cafe_session fresh_page cafe_session_end).
  vm_compute. reflexivity.
Defined.

Lemma scrape_then_export_witness :
  exists s',
    run (js := sample_engine) fresh_page
      [Submit cafe_query; FetchSettled true;
       JsonSettled (Some (JsonObject cafe_payload)); ExportClick] = Some s'
    /\ downloaded s'
       = downloaded fresh_page ++ [csvContent (js := sample_engine) [joes_cafe; unrated_cafe]].
Proof.
  destruct (scrape_then_export (js := sample_engine) fresh_page cafe_query cafe_payload
              [joes_cafe; unrated_cafe] (mkStats (JStr "2") (JStr "1") (JStr "0")))
    as (s' & Hrun & _ & Hdocs & _).
  - reflexivity.
  - discriminate.
  - reflexivity.
  - reflexivity.
  - discriminate.
  - reflexivity.
  - vm_compute. reflexivity.
  - exists s'. split; [exact Hrun | exact Hdocs].
Defined.

(** The documents of the sample session: the same text twice, for the two
    clicks on export. *)
Example cafe_session_downloads :
  downloaded cafe_session_end
  = [csvContent (js := sample_engine) [joes_cafe; unrated_cafe];
     csvContent (js := sample_engine) [joes_cafe; unrated_cafe]]
  /\ length (fetched cafe_session_end) = 2.
Proof. split; vm_compute; reflexivity. Qed.

Lemma export_during_scrape_witness :
  exists s',
    run (js := sample_engine) cafe_shown [Submit cafe_query; ExportClick] = Some s'
    /\ resultsContent s' = Placeholder
    /\ downloaded s' = downloaded cafe_shown ++ [csvContent (js := sample_engine) [joes_cafe]].
Proof.
  destruct (export_during_scrape (js := sample_engine) cafe_shown cafe_query joes_cafe [])
    as (s' & Hrun & _ & Hpanel & _ & _ & Hdocs).
  - vm_compute. reflexivity.
  - discriminate.
  - vm_compute. reflexivity.
  - exists s'. split; [exact Hrun |]. split; [exact Hpanel | exact Hdocs].
Defined.
